(** * CellRepair.AI LangChain tools: a shallow embedding and its properties

    The repository holds two LangChain tools that wrap one HTTP endpoint:

    - [CellRepairAITool] (cellrepair_langchain.py), the lenient variant: it
      can be built without a credential and then answers every call with an
      error string;
    - [CellRepairTool] (cellrepair_langchain_tool.py), the strict variant:
      its constructor raises [ValueError] when no credential is found.

    Python values are dynamically typed, so the body of a response is an
    arbitrary decoded JSON value ([pyval]) and every operation the tools
    apply to it ([data['insight']], [.get], [*100], [:.0f], [in],
    [enumerate], [str]) is modelled with the exception it raises on a value
    of the wrong type.  Effects (the environment, standard output, the
    calls of [requests.post]) are threaded through a [world]. *)

From Stdlib Require Import String Ascii ZArith NArith List Bool Lia.
From Stdlib Require Import PrimFloat FloatOps SpecFloat.
Import ListNotations.

Set Warnings "-inexact-float,-register-all".

(** ** Python strings

    A Python [str] is a sequence of Unicode code points.  Literals of the
    source are written as Rocq strings (their UTF-8 bytes) and decoded by
    [u]. *)

Module PyStr.

Definition pystr := list N.

Local Open Scope N_scope.

Fixpoint utf8_decode (bs : list N) : pystr :=
  match bs with
  | [] => []
  | b0 :: r0 =>
    if b0 <? 128 then b0 :: utf8_decode r0
    else if b0 <? 224 then
      match r0 with
      | b1 :: r1 => ((b0 mod 32) * 64 + b1 mod 64) :: utf8_decode r1
      | _ => [65533]
      end
    else if b0 <? 240 then
      match r0 with
      | b1 :: b2 :: r2 =>
        ((b0 mod 16) * 4096 + (b1 mod 64) * 64 + b2 mod 64) :: utf8_decode r2
      | _ => [65533]
      end
    else
      match r0 with
      | b1 :: b2 :: b3 :: r3 =>
        ((b0 mod 8) * 262144 + (b1 mod 64) * 4096 + (b2 mod 64) * 64 + b3 mod 64)
          :: utf8_decode r3
      | _ => [65533]
      end
  end.

(** The escape sequences of a Python string literal that the source uses. *)
Fixpoint unescape (s : pystr) : pystr :=
  match s with
  | [] => []
  | c :: r =>
    if c =? 92 then
      match r with
      | [] => [c]
      | e :: r' =>
        if e =? 110 then 10 :: unescape r'
        else if e =? 116 then 9 :: unescape r'
        else if e =? 114 then 13 :: unescape r'
        else if e =? 92 then 92 :: unescape r'
        else if e =? 39 then 39 :: unescape r'
        else c :: e :: unescape r'
      end
    else c :: unescape r
  end.

(** A literal of the source, written as in the source. *)
Definition u (s : string) : pystr :=
  unescape (utf8_decode (map N_of_ascii (list_ascii_of_string s))).

Fixpoint str_eqb (a b : pystr) : bool :=
  match a, b with
  | [], [] => true
  | x :: a', y :: b' => (x =? y) && str_eqb a' b'
  | _, _ => false
  end.

(** [s.startswith(p)] *)
Fixpoint startswith (p s : pystr) : bool :=
  match p, s with
  | [], _ => true
  | x :: p', y :: s' => (x =? y) && startswith p' s'
  | _ :: _, [] => false
  end.

(** [p in s] for two strings: [p] occurs in [s] as a substring. *)
Fixpoint contains (p s : pystr) : bool :=
  startswith p s ||
  match s with
  | [] => false
  | _ :: s' => contains p s'
  end.

(** [sep.join(parts)] *)
Fixpoint join (sep : pystr) (parts : list pystr) : pystr :=
  match parts with
  | [] => []
  | [p] => p
  | p :: rest => p ++ sep ++ join sep rest
  end.

(** [s * n] for a string and a count (a negative count gives [""]). *)
Definition str_repeat (s : pystr) (n : Z) : pystr :=
  concat (repeat s (Z.to_nat n)).

(** [str.isspace] on one code point: the characters [str.strip()] removes. *)
Definition isspace (c : N) : bool :=
  ((9 <=? c) && (c <=? 13)) || ((28 <=? c) && (c <=? 32))
  || (c =? 133) || (c =? 160) || (c =? 5760)
  || ((8192 <=? c) && (c <=? 8202))
  || (c =? 8232) || (c =? 8233) || (c =? 8239) || (c =? 8287) || (c =? 12288).

Fixpoint lstrip (s : pystr) : pystr :=
  match s with
  | [] => []
  | c :: s' => if isspace c then lstrip s' else s
  end.

Fixpoint rstrip (s : pystr) : pystr :=
  match s with
  | [] => []
  | c :: s' =>
    match rstrip s' with
    | [] => if isspace c then [] else [c]
    | r => c :: r
    end
  end.

(** [s.strip()] *)
Definition strip (s : pystr) : pystr := rstrip (lstrip s).

(** A string is a single line when it holds no line feed. *)
Definition single_line (s : pystr) : bool := negb (existsb (N.eqb 10) s).

End PyStr.
Export PyStr.

Arguments u _%_string.

(** Literals are compared as written before they are decoded. *)
Strategy 100 [u].

(** ** Numbers: [str(int)] and the [f] presentation type *)

Module PyNum.

Local Open Scope Z_scope.

Definition digit_char (d : Z) : N := Z.to_N (48 + d).

(** Decimal digits of a non-negative integer, most significant first;
    [fuel] bounds the number of digits. *)
Fixpoint digits_fuel (fuel : nat) (n : Z) (acc : pystr) : pystr :=
  match fuel with
  | O => acc
  | S fuel' =>
    let acc' := digit_char (n mod 10) :: acc in
    if n <? 10 then acc' else digits_fuel fuel' (n / 10) acc'
  end.

Definition digits (n : Z) : pystr :=
  digits_fuel (S (Z.to_nat (Z.log2 n))) n [].

(** [str(n)] for an [int]. *)
Definition str_of_int (n : Z) : pystr :=
  if n <? 0 then u "-" ++ digits (- n) else digits n.

(** Rounding of [num / den] ([den > 0]) to the nearest integer, ties to
    even: the rounding of [float.__format__]. *)
Definition round_half_even (num den : Z) : Z :=
  let q := num / den in
  let r := num mod den in
  if (den <? 2 * r) || ((2 * r =? den) && Z.odd q) then q + 1 else q.

(** The digits of the scaled integer [n] with a point before the last [d]
    digits, as the [f] presentation type writes them. *)
Definition fixed_digits (d : nat) (n : Z) : pystr :=
  let ds := digits n in
  let pad := repeat 48%N (S d - length ds) in
  let all := pad ++ ds in
  let k := (length all - d)%nat in
  match d with
  | O => all
  | _ => firstn k all ++ u "." ++ skipn k all
  end.

Definition sign_prefix (s : bool) : pystr := if s then u "-" else [].

(** [format(x, '.<d>f')] for a binary64 value. *)
Definition format_f (d : nat) (x : spec_float) : pystr :=
  match x with
  | S754_nan => u "nan"
  | S754_infinity s => sign_prefix s ++ u "inf"
  | S754_zero s => sign_prefix s ++ fixed_digits d 0
  | S754_finite s m e =>
    let scale := 10 ^ Z.of_nat d in
    let n := if 0 <=? e then Z.pos m * 2 ^ e * scale
             else round_half_even (Z.pos m * scale) (2 ^ (- e)) in
    sign_prefix s ++ fixed_digits d n
  end.

(** [float(n)] for an [int]: the nearest binary64 value, ties to even;
    [S754_infinity] stands for the overflow CPython reports. *)
Definition float_of_int (n : Z) : spec_float :=
  binary_normalize prec emax n 0 false.

End PyNum.
Export PyNum.

(** ** Python values and the operations the tools apply to them *)

(** A decoded JSON document, and the other values the tools handle.  A
    [float] is a binary64 value; a [dict] is the list of its items in
    insertion order. *)
Inductive pyval :=
| PNone
| PBool (b : bool)
| PInt (n : Z)
| PFloat (f : float)
| PStr (s : pystr)
| PList (l : list pyval)
| PDict (d : list (pystr * pyval)).

(** The exception classes that reach the handlers of [_run] and the callers
    of the constructors: what [requests] raises (the three timeouts, other
    transport errors, a body that is not JSON) and what the interpreter
    raises on a value of the wrong shape.  All of them derive from
    [Exception]; [KeyboardInterrupt] and [SystemExit], which do not, are
    signals of the interpreter and no outcome of a call. *)
Inductive exn_class :=
| Timeout | ConnectTimeout | ReadTimeout
| ConnectionError | RequestException | JSONDecodeError
| KeyError | TypeError | AttributeError | ValueError | OverflowError.

(** An exception: its class and [str(e)]. *)
Record exn := mk_exn { exn_cls : exn_class; exn_str : pystr }.

(** [isinstance(e, requests.exceptions.Timeout)] *)
Definition isinstance_Timeout (c : exn_class) : bool :=
  match c with
  | Timeout | ConnectTimeout | ReadTimeout => true
  | _ => false
  end.

(** [isinstance(e, Exception)] *)
Definition isinstance_Exception (c : exn_class) : bool :=
  match c with
  | Timeout | ConnectTimeout | ReadTimeout
  | ConnectionError | RequestException | JSONDecodeError
  | KeyError | TypeError | AttributeError | ValueError | OverflowError => true
  end.

(** The result of evaluating an expression: a value or a raised exception. *)
Inductive outcome (A : Type) :=
| Ok (a : A)
| Raised (e : exn).
Arguments Ok {A} a.
Arguments Raised {A} e.

Definition obind {A B} (c : outcome A) (k : A -> outcome B) : outcome B :=
  match c with
  | Ok a => k a
  | Raised e => Raised e
  end.

Declare Scope outcome_scope.
Delimit Scope outcome_scope with out.
Notation "x <- c ;; k" := (obind c (fun x => k))
  (at level 61, c at next level, right associativity) : outcome_scope.

(** Built-ins of the interpreter that the tools reach through [str()] and
    that are tables of CPython rather than code of this repository: the
    shortest round-trip [repr] of a float, and [str.isprintable] on the code
    points above ASCII (from the Unicode database of the build). *)
Record builtins := mk_builtins {
  float_repr : float -> pystr;
  isprintable : N -> bool
}.

Module PyOps.

Definition type_name (v : pyval) : pystr :=
  match v with
  | PNone => u "NoneType"
  | PBool _ => u "bool"
  | PInt _ => u "int"
  | PFloat _ => u "float"
  | PStr _ => u "str"
  | PList _ => u "list"
  | PDict _ => u "dict"
  end.

(** [bool(v)] *)
Definition truthy (v : pyval) : bool :=
  match v with
  | PNone => false
  | PBool b => b
  | PInt n => negb (n =? 0)%Z
  | PFloat f => negb (PrimFloat.eqb f 0%float)
  | PStr s => negb (str_eqb s [])
  | PList l => match l with [] => false | _ => true end
  | PDict d => match d with [] => false | _ => true end
  end.

(** [a or b] *)
Definition py_or (a b : pyval) : pyval := if truthy a then a else b.

Fixpoint lookup (k : pystr) (d : list (pystr * pyval)) : option pyval :=
  match d with
  | [] => None
  | (k', v) :: d' => if str_eqb k k' then Some v else lookup k d'
  end.

Definition hex_digit (n : N) : N :=
  (if n <? 10 then 48 + n else 87 + n)%N.

(** [n] as [w] lower-case hexadecimal digits. *)
Fixpoint hex (w : nat) (n : N) : pystr :=
  match w with
  | O => []
  | S w' => hex w' (n / 16)%N ++ [hex_digit (n mod 16)%N]
  end.

Section WithBuiltins.

Variable py : builtins.

(** One character of [repr(s)], [quote] being the quote chosen for [s]. *)
Definition repr_char (quote c : N) : pystr :=
  (if (c =? quote) || (c =? 92) then [92; c]
   else if c =? 9 then [92; 116]
   else if c =? 10 then [92; 110]
   else if c =? 13 then [92; 114]
   else if (c <? 32) || (c =? 127) then [92; 120] ++ hex 2 c
   else if c <? 127 then [c]
   else if isprintable py c then [c]
   else if c <? 256 then [92; 120] ++ hex 2 c
   else if c <? 65536 then [92; 117] ++ hex 4 c
   else [92; 85] ++ hex 8 c)%N.

(** [repr(s)] for a [str]. *)
Definition str_repr (s : pystr) : pystr :=
  let quote := if existsb (N.eqb 39) s && negb (existsb (N.eqb 34) s)
               then 34%N else 39%N in
  [quote] ++ flat_map (repr_char quote) s ++ [quote].

(** [repr(v)] *)
Fixpoint py_repr (v : pyval) : pystr :=
  match v with
  | PNone => u "None"
  | PBool true => u "True"
  | PBool false => u "False"
  | PInt n => str_of_int n
  | PFloat f => float_repr py f
  | PStr s => str_repr s
  | PList l => u "[" ++ join (u ", ") (map py_repr l) ++ u "]"
  | PDict d =>
    u "{"
    ++ join (u ", ")
         (map (fun kv => let '(k, x) := kv in str_repr k ++ u ": " ++ py_repr x) d)
    ++ u "}"
  end.

(** [str(v)], which is what [f"{v}"] writes. *)
Definition py_str (v : pyval) : pystr :=
  match v with
  | PStr s => s
  | _ => py_repr v
  end.

(** [v[k]] for a string key [k]. *)
Definition getitem (v : pyval) (k : pystr) : outcome pyval :=
  match v with
  | PDict d =>
    match lookup k d with
    | Some x => Ok x
    | None => Raised (mk_exn KeyError (str_repr k))
    end
  | PStr _ => Raised (mk_exn TypeError (u "string indices must be integers, not 'str'"))
  | PList _ =>
    Raised (mk_exn TypeError (u "list indices must be integers or slices, not str"))
  | _ => Raised (mk_exn TypeError (u "'" ++ type_name v ++ u "' object is not subscriptable"))
  end.

(** [v.get(k, default)] *)
Definition py_get (v : pyval) (k : pystr) (default : pyval) : outcome pyval :=
  match v with
  | PDict d =>
    match lookup k d with
    | Some x => Ok x
    | None => Ok default
    end
  | _ =>
    Raised (mk_exn AttributeError
              (u "'" ++ type_name v ++ u "' object has no attribute 'get'"))
  end.

(** [v == k] for a string [k]. *)
Definition eq_str (k : pystr) (v : pyval) : bool :=
  match v with
  | PStr s => str_eqb s k
  | _ => false
  end.

(** [k in v] for a string [k]. *)
Definition py_in (k : pystr) (v : pyval) : outcome bool :=
  match v with
  | PDict d => Ok (match lookup k d with Some _ => true | None => false end)
  | PStr s => Ok (contains k s)
  | PList l => Ok (existsb (eq_str k) l)
  | _ => Raised (mk_exn TypeError
                   (u "argument of type '" ++ type_name v ++ u "' is not iterable"))
  end.

(** [iter(v)], run to the end: what [enumerate(v, 1)] walks through. *)
Definition py_iter (v : pyval) : outcome (list pyval) :=
  match v with
  | PList l => Ok l
  | PStr s => Ok (map (fun c => PStr [c]) s)
  | PDict d => Ok (map (fun kv => PStr (fst kv)) d)
  | _ => Raised (mk_exn TypeError (u "'" ++ type_name v ++ u "' object is not iterable"))
  end.

(** [v * n] for an [int] right operand. *)
Definition py_mul (v : pyval) (n : Z) : outcome pyval :=
  match v with
  | PInt a => Ok (PInt (a * n))
  | PBool b => Ok (PInt ((if b then 1 else 0) * n))
  | PFloat f =>
    match float_of_int n with
    | S754_infinity _ =>
      Raised (mk_exn OverflowError (u "int too large to convert to float"))
    | x => Ok (PFloat (f * SF2Prim x))
    end
  | PStr s => Ok (PStr (str_repeat s n))
  | PList l => Ok (PList (concat (repeat l (Z.to_nat n))))
  | _ => Raised (mk_exn TypeError
                   (u "unsupported operand type(s) for *: '" ++ type_name v
                    ++ u "' and 'int'"))
  end.

Definition format_int_f (d : nat) (n : Z) : outcome pystr :=
  match float_of_int n with
  | S754_infinity _ =>
    Raised (mk_exn OverflowError (u "int too large to convert to float"))
  | x => Ok (format_f d x)
  end.

(** [format(v, '.<d>f')], which is what [f"{v:.<d>f}"] writes. *)
Definition py_format_f (d : nat) (v : pyval) : outcome pystr :=
  match v with
  | PFloat f => Ok (format_f d (Prim2SF f))
  | PInt n => format_int_f d n
  | PBool b => format_int_f d (if b then 1 else 0)
  | PStr _ =>
    Raised (mk_exn ValueError (u "Unknown format code 'f' for object of type 'str'"))
  | _ => Raised (mk_exn TypeError
                   (u "unsupported format string passed to " ++ type_name v
                    ++ u ".__format__"))
  end.

End WithBuiltins.

End PyOps.
Export PyOps.

(** ** The world outside the tools: environment, network, standard output *)

(** The arguments of one call of [requests.post]. *)
Record request := mk_request {
  req_url : pystr;
  req_headers : list (pystr * pystr);
  req_json : pyval;
  req_timeout : Z
}.

(** A [requests.Response], as far as the tools read it: [status_code] and
    what [response.json()] does (the decoded body, or the exception raised
    on a body that is not JSON). *)
Record response := mk_response {
  status_code : Z;
  json : outcome pyval
}.

(** [network] is what [requests.post] does with a request: it raises or it
    returns a response.  [sent] logs the calls of [requests.post], oldest
    first; [stdout] the lines printed. *)
Record world := mk_world {
  environ : list (pystr * pystr);
  network : request -> outcome response;
  sent : list request;
  stdout : list pystr
}.

(** Code that runs in the world and may raise. *)
Definition M (A : Type) := world -> outcome A * world.

Definition ret {A} (a : A) : M A := fun w => (Ok a, w).

Definition bind {A B} (c : M A) (k : A -> M B) : M B :=
  fun w =>
    match c w with
    | (Ok a, w') => k a w'
    | (Raised e, w') => (Raised e, w')
    end.

Definition raise {A} (e : exn) : M A := fun w => (Raised e, w).

Definition lift {A} (c : outcome A) : M A := fun w => (c, w).

Declare Scope py_scope.
Delimit Scope py_scope with py.
Notation "x <- c ;; k" := (bind c (fun x => k))
  (at level 61, c at next level, right associativity) : py_scope.
Notation "x <~ c ;; k" := (bind (lift c) (fun x => k))
  (at level 61, c at next level, right associativity) : py_scope.
Notation "c ;; k" := (bind c (fun _ => k))
  (at level 61, right associativity) : py_scope.

(** [try: body except C1: h1 except C2 as e: h2 ...]: the first handler whose
    class matches runs; with none the exception goes on. *)
Definition try_except {A} (body : M A)
    (handlers : list ((exn_class -> bool) * (exn -> M A))) : M A :=
  fun w =>
    match body w with
    | (Ok a, w') => (Ok a, w')
    | (Raised e, w') =>
      match find (fun h => fst h (exn_cls e)) handlers with
      | Some h => snd h e w'
      | None => (Raised e, w')
      end
    end.

Fixpoint env_lookup (k : pystr) (env : list (pystr * pystr)) : option pystr :=
  match env with
  | [] => None
  | (k', v) :: env' => if str_eqb k k' then Some v else env_lookup k env'
  end.

(** [os.getenv(k, default)] *)
Definition os_getenv (k default : pystr) : M pystr :=
  fun w =>
    (Ok (match env_lookup k (environ w) with Some v => v | None => default end), w).

(** [print(s)] *)
Definition print (s : pystr) : M unit :=
  fun w => (Ok tt, mk_world (environ w) (network w) (sent w) (stdout w ++ [s])).

(** [requests.post(url, headers=..., json=..., timeout=...)] *)
Definition requests_post (url : pystr) (headers : list (pystr * pystr))
    (body : pyval) (timeout : Z) : M response :=
  fun w =>
    let req := mk_request url headers body timeout in
    (network w req, mk_world (environ w) (network w) (sent w ++ [req]) (stdout w)).

(** [enumerate(l, start)] *)
Fixpoint enumerate {A} (l : list A) (start : Z) : list (Z * A) :=
  match l with
  | [] => []
  | x :: r => (start, x) :: enumerate r (start + 1)
  end.

(** The [run_manager] argument; the tools never read it. *)
Definition CallbackManagerForToolRun := unit.

Local Open Scope py_scope.

(** ** cellrepair_langchain.py: the lenient tool *)

Module cellrepair_langchain.

Record CellRepairAITool := mk_tool {
  api_key : pystr;
  api_url : pystr
}.

(** [CellRepairAITool.__init__(self, api_key=None)]; the fields start from
    their class defaults. *)
Definition __init__ (api_key : option pystr) : M CellRepairAITool :=
  let self := mk_tool (u "") (u "https://cellrepair.ai/api/v1/collaborate") in
  key <- match api_key with
         | Some k => if truthy (PStr k) then ret k
                     else os_getenv (u "CELLREPAIR_API_KEY") (u "")
         | None => os_getenv (u "CELLREPAIR_API_KEY") (u "")
         end ;;
  let self := mk_tool key (api_url self) in
  if negb (truthy (PStr (cellrepair_langchain.api_key self))) then
    print (u "⚠️  No API key provided. Get one at: https://cellrepair.ai/api/") ;;
    print (u "   Free tier: 1000 calls/month!") ;;
    ret self
  else ret self.

(** [CellRepairAITool._run(self, query, run_manager=None)] *)
Definition _run (py : builtins) (self : CellRepairAITool) (query : pystr)
    (run_manager : option CallbackManagerForToolRun) : M pyval :=
  if negb (truthy (PStr (api_key self))) then
    ret (PStr (u "Error: No API key. Get free key at https://cellrepair.ai/api/ (1000 calls/month free!)"))
  else
  try_except
    (response <- requests_post (api_url self)
                   [(u "Authorization", u "Bearer " ++ api_key self);
                    (u "Content-Type", u "application/json")]
                   (PDict [(u "system", PStr (u "LangChain"));
                           (u "query", PStr query);
                           (u "context", PDict [])])
                   30 ;;
     if (status_code response =? 401)%Z then
       ret (PStr (u "Error: Invalid API key. Get one at https://cellrepair.ai/api/"))
     else if negb (status_code response =? 200)%Z then
       ret (PStr (u "Error: API returned " ++ str_of_int (status_code response)))
     else
       data <~ json response ;;
       (* Format response *)
       let result := u "CellRepair.AI Network Response:\n\n" in
       insight <~ getitem py data (u "insight") ;;
       recommendation <~ getitem py insight (u "recommendation") ;;
       let result := result ++ py_str py recommendation ++ u "\n\n" in
       insight <~ getitem py data (u "insight") ;;
       confidence <~ getitem py insight (u "confidence") ;;
       percent <~ py_mul confidence 100 ;;
       shown <~ py_format_f 0 percent ;;
       let result := result ++ u "Confidence: " ++ shown ++ u "%\n" in
       agents <~ getitem py data (u "agents_consulted") ;;
       let result := result ++ u "Agents consulted: " ++ py_str py agents ++ u "\n" in
       (* Add predictive insights *)
       has_predictive <~ py_in (u "predictive_intelligence") data ;;
       result <-
         (if has_predictive : bool then
            predictive <~ getitem py data (u "predictive_intelligence") ;;
            next_q <~ py_get predictive (u "you_will_probably_ask_next") (PList []) ;;
            if truthy next_q then
              let result := result ++ u "\nYou'll probably ask next:\n" in
              items <~ py_iter next_q ;;
              ret (fold_left
                     (fun result iq =>
                        result ++ u "  " ++ str_of_int (fst iq) ++ u ". "
                        ++ py_str py (snd iq) ++ u "\n")
                     (enumerate items 1) result)
            else ret result
          else ret result) ;;
       (* Add learning info *)
       has_learning <~ py_in (u "learning_exchange") data ;;
       result <-
         (if has_learning : bool then
            learn <~ getitem py data (u "learning_exchange") ;;
            improved <~ py_get learn (u "both_systems_improved") PNone ;;
            if truthy improved then
              ret (result ++ u "\n✨ Both LangChain and CellRepair.AI got smarter from this!\n")
            else ret result
          else ret result) ;;
       ret (PStr result))
    [(isinstance_Timeout,
      fun _ => ret (PStr (u "Error: Request timed out. Try again.")));
     (isinstance_Exception,
      fun e => ret (PStr (u "Error: " ++ exn_str e)))].

(** [CellRepairAITool._arun(self, query, run_manager=None)]: what awaiting
    the coroutine does. *)
Definition _arun (py : builtins) (self : CellRepairAITool) (query : pystr)
    (run_manager : option CallbackManagerForToolRun) : M pyval :=
  _run py self query run_manager.

(** [get_cellrepair_tool(api_key=None)] *)
Definition get_cellrepair_tool (api_key : option pystr) : M CellRepairAITool :=
  __init__ api_key.


End cellrepair_langchain.

(** ** cellrepair_langchain_tool.py: the strict tool *)

Module cellrepair_langchain_tool.

Record CellRepairTool := mk_tool {
  api_key : pystr;
  api_endpoint : pystr
}.

(** [CellRepairTool.__init__(self, api_key=None)] *)
Definition __init__ (api_key : option pystr) : M CellRepairTool :=
  api_key <- match api_key with
             | None => os_getenv (u "CELLREPAIR_API_KEY") (u "")
             | Some k => ret k
             end ;;
  let self := mk_tool api_key (u "https://cellrepair.ai/api/v1/collaborate") in
  if negb (truthy (PStr (cellrepair_langchain_tool.api_key self))) then
    raise (mk_exn ValueError
             (u "API key required! Get one at: https://cellrepair.ai/api/?utm_source=langchain&utm_medium=integration\nOr set CELLREPAIR_API_KEY environment variable."))
  else ret self.

(** [CellRepairTool._run(self, query, context=None, run_manager=None)] *)
Definition _run (py : builtins) (self : CellRepairTool) (query : pystr)
    (context : pyval) (run_manager : option CallbackManagerForToolRun) : M pyval :=
  try_except
    (let headers := [(u "Authorization", u "Bearer " ++ api_key self);
                     (u "Content-Type", u "application/json")] in
     let payload := PDict [(u "system", PStr (u "LangChain"));
                           (u "query", PStr query);
                           (u "context", py_or context (PDict []))] in
     response <- requests_post (api_endpoint self) headers payload 30 ;;
     if (status_code response =? 401)%Z then
       ret (PStr (u "Error: Invalid API key. Get a free key at https://cellrepair.ai/api/?utm_source=langchain"))
     else if negb (status_code response =? 200)%Z then
       ret (PStr (u "Error: API returned status " ++ str_of_int (status_code response)))
     else
       data <~ json response ;;
       (* Format response for LangChain *)
       insight <~ py_get data (u "insight") (PDict []) ;;
       recommendation <~ py_get insight (u "recommendation")
                           (PStr (u "No recommendation available")) ;;
       confidence <~ py_get insight (u "confidence") (PInt 0) ;;
       agents <~ py_get data (u "agents_consulted") (PInt 0) ;;
       (* Include predictive intelligence if available *)
       predictive <~ py_get data (u "predictive_intelligence") (PDict []) ;;
       next_questions <~ py_get predictive (u "you_will_probably_ask_next") (PList []) ;;
       percent <~ py_mul confidence 100 ;;
       shown <~ py_format_f 1 percent ;;
       implementation_time <~ py_get insight (u "implementation_time")
                                (PStr (u "Unknown")) ;;
       roi_estimate <~ py_get insight (u "roi_estimate") (PStr (u "Unknown")) ;;
       let result :=
         u "CellRepair.AI Analysis:\n\n" ++ py_str py recommendation
         ++ u "\n\nConfidence: " ++ shown
         ++ u "%\nAgents Consulted: " ++ py_str py agents
         ++ u "\nImplementation Time: " ++ py_str py implementation_time
         ++ u "\nROI Estimate: " ++ py_str py roi_estimate ++ u "\n" in
       result <-
         (if truthy next_questions then
            let result := result ++ u "\n\nPredictive Intelligence (3 steps ahead):\n" in
            items <~ py_iter next_questions ;;
            ret (fold_left
                   (fun result iq =>
                      result ++ u "  " ++ str_of_int (fst iq) ++ u ". "
                      ++ py_str py (snd iq) ++ u "\n")
                   (enumerate items 1) result)
          else ret result) ;;
       ret (PStr (strip result)))
    [(isinstance_Timeout,
      fun _ => ret (PStr (u "Error: Request timed out. Please try again.")));
     (isinstance_Exception,
      fun e => ret (PStr (u "Error: " ++ exn_str e)))].

(** [create_cellrepair_tool(api_key=None)] *)
Definition create_cellrepair_tool (api_key : option pystr) : M CellRepairTool :=
  __init__ api_key.

End cellrepair_langchain_tool.

(** ** Vocabulary of the statements

    Names for what the theorems below speak about, inputs to run the model
    on, and proof automation. *)

Module Lenient := cellrepair_langchain.
Module Strict := cellrepair_langchain_tool.

(** The request the lenient [_run] passes to [requests.post] for a query. *)
Definition lenient_request (self : Lenient.CellRepairAITool) (query : pystr) : request :=
  mk_request (Lenient.api_url self)
    [(u "Authorization", u "Bearer " ++ Lenient.api_key self);
     (u "Content-Type", u "application/json")]
    (PDict [(u "system", PStr (u "LangChain"));
            (u "query", PStr query);
            (u "context", PDict [])])
    30.

(** The request the strict [_run] passes to [requests.post] for a query and a
    context. *)
Definition strict_request (self : Strict.CellRepairTool) (query : pystr) (context : pyval)
    : request :=
  mk_request (Strict.api_endpoint self)
    [(u "Authorization", u "Bearer " ++ Strict.api_key self);
     (u "Content-Type", u "application/json")]
    (PDict [(u "system", PStr (u "LangChain"));
            (u "query", PStr query);
            (u "context", py_or context (PDict []))])
    30.

(** What the lenient [_run] computes between [data = response.json()] and
    [return result], as a function of the decoded body alone
    ([lenient_run_200] shows that [_run] returns it). *)
Definition lenient_format (py : builtins) (data : pyval) : outcome pyval :=
  (let result := u "CellRepair.AI Network Response:\n\n" in
   insight <- getitem py data (u "insight") ;;
   recommendation <- getitem py insight (u "recommendation") ;;
   let result := result ++ py_str py recommendation ++ u "\n\n" in
   insight <- getitem py data (u "insight") ;;
   confidence <- getitem py insight (u "confidence") ;;
   percent <- py_mul confidence 100 ;;
   shown <- py_format_f 0 percent ;;
   let result := result ++ u "Confidence: " ++ shown ++ u "%\n" in
   agents <- getitem py data (u "agents_consulted") ;;
   let result := result ++ u "Agents consulted: " ++ py_str py agents ++ u "\n" in
   (* Add predictive insights *)
   has_predictive <- py_in (u "predictive_intelligence") data ;;
   result <-
     (if has_predictive : bool then
        predictive <- getitem py data (u "predictive_intelligence") ;;
        next_q <- py_get predictive (u "you_will_probably_ask_next") (PList []) ;;
        if truthy next_q then
          let result := result ++ u "\nYou'll probably ask next:\n" in
          items <- py_iter next_q ;;
          Ok (fold_left
                (fun result iq =>
                   result ++ u "  " ++ str_of_int (fst iq) ++ u ". "
                   ++ py_str py (snd iq) ++ u "\n")
                (enumerate items 1) result)
        else Ok result
      else Ok result) ;;
   (* Add learning info *)
   has_learning <- py_in (u "learning_exchange") data ;;
   result <-
     (if has_learning : bool then
        learn <- getitem py data (u "learning_exchange") ;;
        improved <- py_get learn (u "both_systems_improved") PNone ;;
        if truthy improved then
          Ok (result ++ u "\n✨ Both LangChain and CellRepair.AI got smarter from this!\n")
        else Ok result
      else Ok result) ;;
   Ok (PStr result))%out.

(** What the strict [_run] computes between [data = response.json()] and
    [return result.strip()], as a function of the decoded body alone
    ([strict_run_200] shows that [_run] returns it). *)
Definition strict_format (py : builtins) (data : pyval) : outcome pyval :=
  (insight <- py_get data (u "insight") (PDict []) ;;
   recommendation <- py_get insight (u "recommendation")
                       (PStr (u "No recommendation available")) ;;
   confidence <- py_get insight (u "confidence") (PInt 0) ;;
   agents <- py_get data (u "agents_consulted") (PInt 0) ;;
   (* Include predictive intelligence if available *)
   predictive <- py_get data (u "predictive_intelligence") (PDict []) ;;
   next_questions <- py_get predictive (u "you_will_probably_ask_next") (PList []) ;;
   percent <- py_mul confidence 100 ;;
   shown <- py_format_f 1 percent ;;
   implementation_time <- py_get insight (u "implementation_time")
                            (PStr (u "Unknown")) ;;
   roi_estimate <- py_get insight (u "roi_estimate") (PStr (u "Unknown")) ;;
   let result :=
     u "CellRepair.AI Analysis:\n\n" ++ py_str py recommendation
     ++ u "\n\nConfidence: " ++ shown
     ++ u "%\nAgents Consulted: " ++ py_str py agents
     ++ u "\nImplementation Time: " ++ py_str py implementation_time
     ++ u "\nROI Estimate: " ++ py_str py roi_estimate ++ u "\n" in
   result <-
     (if truthy next_questions then
        let result := result ++ u "\n\nPredictive Intelligence (3 steps ahead):\n" in
        items <- py_iter next_questions ;;
        Ok (fold_left
              (fun result iq =>
                 result ++ u "  " ++ str_of_int (fst iq) ++ u ". "
                 ++ py_str py (snd iq) ++ u "\n")
              (enumerate items 1) result)
      else Ok result) ;;
   Ok (PStr (strip result)))%out.

(** The name of the environment variable and the default endpoint. *)
Definition ENV_KEY : pystr := u "CELLREPAIR_API_KEY".
Definition DEFAULT_URL : pystr := u "https://cellrepair.ai/api/v1/collaborate".

(** Where a key is obtained, as every message that says so writes it. *)
Definition KEY_URL : pystr := u "https://cellrepair.ai/api/".

(** An instance of the interpreter's built-ins to run the model on: floats
    written with one decimal, every code point above ASCII printable. *)
Definition demo_builtins : builtins :=
  mk_builtins (fun f => format_f 1 (Prim2SF f)) (fun _ => true).

(** A world with the given environment and a network that gives every
    request the same outcome; nothing sent or printed yet. *)
Definition world_with (env : list (pystr * pystr)) (answer : outcome response)
    : world :=
  mk_world env (fun _ => answer) [] [].

(** [str(n)] writes digits and at most a minus sign. *)
Definition not_in_numbers (c : N) : Prop := (c < 45 \/ 45 < c < 48 \/ 57 < c)%N.

(** An error line: it begins with "Error: ", holds no line feed, and names
    the page where a key is obtained or not, as [names_url] says. *)
Definition error_line (names_url : bool) (s : pystr) : Prop :=
  startswith (u "Error: ") s = true
  /\ single_line s = true
  /\ contains KEY_URL s = names_url.

(** The world after one call of [requests.post]. *)
Definition posted (w : world) (r : request) : world :=
  mk_world (environ w) (network w) (sent w ++ [r]) (stdout w).

(** What the two handlers of [_run] make of an exception. *)
Definition handled (timed_out : pystr) (e : exn) : pyval :=
  PStr (if isinstance_Timeout (exn_cls e) then timed_out else u "Error: " ++ exn_str e).

(** [c] touches nothing in the world and evaluates to [o]. *)
Definition runs_as {A} (c : M A) (o : outcome A) : Prop :=
  forall w, c w = (o, w).

(** Follows a chain of [obind]s that is known to end in [Ok]. *)
Ltac run_obind :=
  repeat match goal with
         | H : obind ?c _ = Ok _ |- _ =>
           let E := fresh "E" in
           destruct c eqn:E; cbn [obind] in H; [| discriminate H]
         | H : (if ?b then _ else _) = Ok _ |- _ => destruct b
         | H : Ok _ = Ok _ |- _ => injection H as H
         end.

(** Tools and worlds to run the model on. *)
Definition demo_lenient : Lenient.CellRepairAITool :=
  Lenient.mk_tool (u "secret") DEFAULT_URL.
Definition demo_unkeyed : Lenient.CellRepairAITool :=
  Lenient.mk_tool (u "") DEFAULT_URL.
Definition demo_strict : Strict.CellRepairTool :=
  Strict.mk_tool (u "secret") DEFAULT_URL.

(** A world whose network answers every request with the given status and
    an empty JSON object. *)
Definition answering (status : Z) : world :=
  world_with [] (Ok (mk_response status (Ok (PDict [])))).

(** A success body with the fields every response carries, and the same
    with two predicted follow-up questions.  The confidence is the binary64
    value nearest to 0.87, which is what [response.json()] reads. *)
Definition insight_items : list (pystr * pyval) :=
  [(u "insight", PDict [(u "recommendation", PStr (u "Use caching"));
                        (u "confidence", PFloat 0.87)]);
   (u "agents_consulted", PInt 42)].

Definition success_body (q1 q2 : pystr) : pyval :=
  PDict (insight_items
         ++ [(u "predictive_intelligence",
              PDict [(u "you_will_probably_ask_next", PList [PStr q1; PStr q2])])]).

(** A world whose network answers every request with status 200 and the
    given decoded body. *)
Definition replying (body : pyval) : world :=
  world_with [] (Ok (mk_response 200 (Ok body))).

(** Success bodies that lack one field: [confidence], [agents_consulted]. *)
Definition body_without_confidence : pyval :=
  PDict [(u "insight", PDict [(u "recommendation", PStr (u "Use caching"))]);
         (u "agents_consulted", PInt 42)].

Definition body_without_agents : pyval :=
  PDict [(u "insight", PDict [(u "recommendation", PStr (u "Use caching"));
                              (u "confidence", PFloat 0.87)])].

(** Writes the literals of the goal as lists of code points. *)
Ltac decode_literals :=
  repeat match goal with
         | |- context [u ?s] =>
           let v := eval vm_compute in (u s) in change (u s) with v
         end;
  cbn [app].

(** ** Vocabulary of the further properties *)

(** The first line of a formatted answer of each tool. *)
Definition LENIENT_HEADER : pystr := u "CellRepair.AI Network Response:".
Definition STRICT_HEADER : pystr := u "CellRepair.AI Analysis:".

(** The questions [qs], one per line, numbered from [i] on. *)
Fixpoint numbered_from (i : Z) (qs : list pystr) : pystr :=
  match qs with
  | [] => []
  | q :: rest =>
    u "  " ++ str_of_int i ++ u ". " ++ q ++ u "\n" ++ numbered_from (i + 1) rest
  end.

(** The value of a key that may be absent. *)
Definition or_default (found : option pyval) (default : pyval) : pyval :=
  match found with
  | Some v => v
  | None => default
  end.

(** The part of a lenient answer that every answer has. *)
Definition lenient_base (rec : pystr) (c : float) (n : Z) : pystr :=
  u "CellRepair.AI Network Response:\n\n" ++ rec
  ++ u "\n\nConfidence: " ++ format_f 0 (Prim2SF (c * 100)%float)
  ++ u "%\nAgents consulted: " ++ str_of_int n ++ u "\n".

(** The lines the lenient constructor prints when it finds no key. *)
Definition ADVISORY : list pystr :=
  [u "⚠️  No API key provided. Get one at: https://cellrepair.ai/api/";
   u "   Free tier: 1000 calls/month!"].

(** The value of the Authorization header of a request, if it has one. *)
Definition authorization (r : request) : option pystr :=
  env_lookup (u "Authorization") (req_headers r).

(** The value under [k] in the JSON body of a request. *)
Definition body_field (k : pystr) (r : request) : option pyval :=
  match req_json r with
  | PDict d => lookup k d
  | _ => None
  end.

(** The part of a strict answer that every answer has, before it is
    stripped. *)
Definition strict_base (py : builtins) (rec : pystr) (c : float) (n : Z)
    (implementation_time roi_estimate : pyval) : pystr :=
  u "CellRepair.AI Analysis:\n\n" ++ rec
  ++ u "\n\nConfidence: " ++ format_f 1 (Prim2SF (c * 100)%float)
  ++ u "%\nAgents Consulted: " ++ str_of_int n
  ++ u "\nImplementation Time: " ++ py_str py implementation_time
  ++ u "\nROI Estimate: " ++ py_str py roi_estimate ++ u "\n".

(** The section of predicted questions in an answer of each tool: nothing
    for no question, else a heading and the numbered questions. *)
Definition lenient_questions (qs : list pystr) : pystr :=
  match qs with
  | [] => []
  | _ => u "\nYou'll probably ask next:\n" ++ numbered_from 1 qs
  end.

Definition strict_questions (qs : list pystr) : pystr :=
  match qs with
  | [] => []
  | _ => u "\n\nPredictive Intelligence (3 steps ahead):\n" ++ numbered_from 1 qs
  end.

(** The note of the lenient tool on mutual improvement. *)
Definition LEARNING_NOTE : pystr :=
  u "\n✨ Both LangChain and CellRepair.AI got smarter from this!\n".

(** The body [d] predicts the questions [qs]: [predictive_intelligence] is
    an object whose [you_will_probably_ask_next] is the list of these
    strings; with either key absent there is no question. *)
Definition asks (d : list (pystr * pyval)) (qs : list pystr) : Prop :=
  (lookup (u "predictive_intelligence") d = None /\ qs = [])
  \/ exists pi,
       lookup (u "predictive_intelligence") d = Some (PDict pi)
       /\ (lookup (u "you_will_probably_ask_next") pi = Some (PList (map PStr qs))
           \/ (lookup (u "you_will_probably_ask_next") pi = None /\ qs = [])).

(** The body [d] has the three fields both tools show, well typed. *)
Definition well_formed (d ins : list (pystr * pyval)) (rec : pystr) (c : float)
    (n : Z) : Prop :=
  lookup (u "insight") d = Some (PDict ins)
  /\ lookup (u "recommendation") ins = Some (PStr rec)
  /\ lookup (u "confidence") ins = Some (PFloat c)
  /\ lookup (u "agents_consulted") d = Some (PInt n).

(** Bodies to run the model on: the items of [insight_items] with a list of
    predicted questions, or with a [learning_exchange] holding a flag. *)
Definition demo_insight : list (pystr * pyval) :=
  [(u "recommendation", PStr (u "Use caching")); (u "confidence", PFloat 0.87)].

Definition items_asking (qs : list pystr) : list (pystr * pyval) :=
  insight_items
  ++ [(u "predictive_intelligence",
       PDict [(u "you_will_probably_ask_next", PList (map PStr qs))])].

Definition items_learning (flag : pyval) : list (pystr * pyval) :=
  insight_items
  ++ [(u "learning_exchange", PDict [(u "both_systems_improved", flag)])].



(** ** Numbers as Python writes them *)

Example str_of_int_examples :
  str_of_int 0 = u "0" /\ str_of_int 42 = u "42" /\ str_of_int (-500) = u "-500"
  /\ str_of_int 1000 = u "1000".
Proof. repeat split; vm_compute; reflexivity. Qed.

(** [0.87 * 100] is the float 87.0; ties go to the even digit; the sign of a
    negative value survives rounding to zero. *)
Example format_f_examples :
  format_f 0 (Prim2SF (0.87 * 100)%float) = u "87"
  /\ format_f 1 (Prim2SF (0.87 * 100)%float) = u "87.0"
  /\ format_f 1 (Prim2SF (0.29 * 100)%float) = u "29.0"
  /\ format_f 1 (Prim2SF (-0.04)%float) = u "-0.0"
  /\ format_f 0 (Prim2SF 0.5%float) = u "0"
  /\ format_f 0 (Prim2SF 1.5%float) = u "2"
  /\ format_f 0 (Prim2SF 2.5%float) = u "2"
  /\ format_f 2 (Prim2SF 0.125%float) = u "0.12"
  /\ format_f 1 (float_of_int 100) = u "100.0"
  /\ format_int_f 1 (10 ^ 400) = Raised (mk_exn OverflowError (u "int too large to convert to float")).
Proof. repeat split; vm_compute; reflexivity. Qed.

(** [repr] of a string picks its quote and escapes what a literal would. *)
Example str_repr_examples :
  str_repr demo_builtins (u "confidence") = u "'confidence'"
  /\ str_repr demo_builtins (u "it's") = [34; 105; 116; 39; 115; 34]%N
  /\ py_str demo_builtins (PList [PInt 1; PStr (u "a"); PNone; PBool true])
     = u "[1, 'a', None, True]"
  /\ py_str demo_builtins (PDict [(u "k", PList [])]) = u "{'k': []}".
Proof. repeat split; vm_compute; reflexivity. Qed.

(** ** Credential resolution (constructors) *)

Lemma truthy_nonempty (k : pystr) : k <> [] -> truthy (PStr k) = true.
Proof. destruct k; [congruence | reflexivity]. Qed.

Lemma getenv_set (w : world) (e : pystr) :
  env_lookup ENV_KEY (environ w) = Some e ->
  os_getenv (u "CELLREPAIR_API_KEY") (u "") w = (Ok e, w).
Proof. unfold os_getenv, ENV_KEY. intros ->. reflexivity. Qed.

Lemma getenv_unset (w : world) :
  env_lookup ENV_KEY (environ w) = None ->
  os_getenv (u "CELLREPAIR_API_KEY") (u "") w = (Ok [], w).
Proof. unfold os_getenv, ENV_KEY. intros ->. reflexivity. Qed.

Lemma lenient_init_explicit (w : world) (k : pystr) :
  k <> [] -> Lenient.__init__ (Some k) w = (Ok (Lenient.mk_tool k DEFAULT_URL), w).
Proof.
  intros Hk. destruct k as [|c k]; [congruence | reflexivity].
Qed.

Lemma lenient_init_env (w : world) (a : option pystr) (e : pystr) :
  a = None \/ a = Some [] ->
  env_lookup ENV_KEY (environ w) = Some e -> e <> [] ->
  Lenient.__init__ a w = (Ok (Lenient.mk_tool e DEFAULT_URL), w).
Proof.
  intros Ha He Hne. destruct e as [|c e]; [congruence |].
  unfold Lenient.__init__, bind.
  destruct Ha as [-> | ->]; cbn [truthy str_eqb negb];
    rewrite (getenv_set w _ He); reflexivity.
Qed.

Lemma lenient_init_nothing (w : world) :
  env_lookup ENV_KEY (environ w) = None ->
  fst (Lenient.__init__ None w) = Ok (Lenient.mk_tool [] DEFAULT_URL).
Proof.
  intros He. unfold Lenient.__init__, bind.
  rewrite (getenv_unset w He). reflexivity.
Qed.

Lemma strict_init_explicit (w : world) (k : pystr) :
  k <> [] -> Strict.__init__ (Some k) w = (Ok (Strict.mk_tool k DEFAULT_URL), w).
Proof.
  intros Hk. destruct k as [|c k]; [congruence | reflexivity].
Qed.

Lemma strict_init_env (w : world) (e : pystr) :
  env_lookup ENV_KEY (environ w) = Some e -> e <> [] ->
  Strict.__init__ None w = (Ok (Strict.mk_tool e DEFAULT_URL), w).
Proof.
  intros He Hne. destruct e as [|c e]; [congruence |].
  unfold Strict.__init__, bind.
  rewrite (getenv_set w _ He). reflexivity.
Qed.

Lemma strict_init_nothing (w : world) :
  env_lookup ENV_KEY (environ w) = None ->
  exists msg, Strict.__init__ None w = (Raised (mk_exn ValueError msg), w).
Proof.
  intros He. unfold Strict.__init__, bind.
  rewrite (getenv_unset w He). eexists. reflexivity.
Qed.

Lemma strict_init_empty (w : world) :
  exists msg, Strict.__init__ (Some []) w = (Raised (mk_exn ValueError msg), w).
Proof. eexists. reflexivity. Qed.

(** C2: credential resolution at construction.  A non-empty explicit
    argument becomes the credential of either tool whatever the environment
    holds; with no explicit argument a non-empty value of CELLREPAIR_API_KEY
    is used; with neither, the lenient constructor returns a tool whose
    credential is empty and the strict constructor raises ValueError. *)
Theorem credential_resolution_precedence (w : world) :
  (forall k, k <> [] ->
     fst (Lenient.__init__ (Some k) w) = Ok (Lenient.mk_tool k DEFAULT_URL)
     /\ fst (Strict.__init__ (Some k) w) = Ok (Strict.mk_tool k DEFAULT_URL))
  /\ (forall e, env_lookup ENV_KEY (environ w) = Some e -> e <> [] ->
     fst (Lenient.__init__ None w) = Ok (Lenient.mk_tool e DEFAULT_URL)
     /\ fst (Strict.__init__ None w) = Ok (Strict.mk_tool e DEFAULT_URL))
  /\ (env_lookup ENV_KEY (environ w) = None ->
     fst (Lenient.__init__ None w) = Ok (Lenient.mk_tool [] DEFAULT_URL)
     /\ exists msg, fst (Strict.__init__ None w) = Raised (mk_exn ValueError msg)).
Proof.
  repeat split.
  - rewrite lenient_init_explicit by assumption. reflexivity.
  - rewrite strict_init_explicit by assumption. reflexivity.
  - rewrite (lenient_init_env w None e) by auto. reflexivity.
  - rewrite (strict_init_env w e) by assumption. reflexivity.
  - now apply lenient_init_nothing.
  - destruct (strict_init_nothing w H) as [msg Hmsg].
    exists msg. rewrite Hmsg. reflexivity.
Qed.

Lemma credential_resolution_precedence_witness :
  (fst (Lenient.__init__ (Some (u "explicit"))
          (world_with [(ENV_KEY, u "from-env")] (Raised (mk_exn Timeout []))))
     = Ok (Lenient.mk_tool (u "explicit") DEFAULT_URL)
   /\ fst (Strict.__init__ (Some (u "explicit"))
          (world_with [(ENV_KEY, u "from-env")] (Raised (mk_exn Timeout []))))
     = Ok (Strict.mk_tool (u "explicit") DEFAULT_URL))
  /\ (fst (Lenient.__init__ None
          (world_with [(ENV_KEY, u "from-env")] (Raised (mk_exn Timeout []))))
     = Ok (Lenient.mk_tool (u "from-env") DEFAULT_URL)
   /\ fst (Strict.__init__ None
          (world_with [(ENV_KEY, u "from-env")] (Raised (mk_exn Timeout []))))
     = Ok (Strict.mk_tool (u "from-env") DEFAULT_URL))
  /\ (fst (Lenient.__init__ None (world_with [] (Raised (mk_exn Timeout []))))
     = Ok (Lenient.mk_tool [] DEFAULT_URL)
   /\ exists msg,
       fst (Strict.__init__ None (world_with [] (Raised (mk_exn Timeout []))))
       = Raised (mk_exn ValueError msg)).
Proof.
  split; [| split].
  - apply (proj1 (credential_resolution_precedence
                    (world_with [(ENV_KEY, u "from-env")] (Raised (mk_exn Timeout []))))
             (u "explicit")).
    discriminate.
  - apply (proj1 (proj2 (credential_resolution_precedence
                    (world_with [(ENV_KEY, u "from-env")] (Raised (mk_exn Timeout [])))))
             (u "from-env")).
    + reflexivity.
    + discriminate.
  - apply (proj2 (proj2 (credential_resolution_precedence
                    (world_with [] (Raised (mk_exn Timeout [])))))).
    reflexivity.
Defined.

(** C10: an explicit empty string.  The lenient constructor treats it as
    absent and takes a non-empty CELLREPAIR_API_KEY from the environment;
    the strict constructor consults the environment only for [None], so an
    explicit empty string makes it raise ValueError even when the variable
    is set. *)
Theorem explicit_empty_string_credential (w : world) (e : pystr) :
  env_lookup ENV_KEY (environ w) = Some e -> e <> [] ->
  fst (Lenient.__init__ (Some []) w) = Ok (Lenient.mk_tool e DEFAULT_URL)
  /\ fst (Strict.__init__ None w) = Ok (Strict.mk_tool e DEFAULT_URL)
  /\ exists msg, fst (Strict.__init__ (Some []) w) = Raised (mk_exn ValueError msg).
Proof.
  intros He Hne. repeat split.
  - rewrite (lenient_init_env w (Some []) e) by auto. reflexivity.
  - rewrite (strict_init_env w e) by assumption. reflexivity.
  - destruct (strict_init_empty w) as [msg Hmsg].
    exists msg. rewrite Hmsg. reflexivity.
Qed.

Lemma explicit_empty_string_credential_witness :
  fst (Lenient.__init__ (Some [])
         (world_with [(ENV_KEY, u "from-env")] (Raised (mk_exn Timeout []))))
    = Ok (Lenient.mk_tool (u "from-env") DEFAULT_URL)
  /\ fst (Strict.__init__ None
         (world_with [(ENV_KEY, u "from-env")] (Raised (mk_exn Timeout []))))
    = Ok (Strict.mk_tool (u "from-env") DEFAULT_URL)
  /\ exists msg,
      fst (Strict.__init__ (Some [])
             (world_with [(ENV_KEY, u "from-env")] (Raised (mk_exn Timeout []))))
      = Raised (mk_exn ValueError msg).
Proof.
  apply (explicit_empty_string_credential
           (world_with [(ENV_KEY, u "from-env")] (Raised (mk_exn Timeout [])))
           (u "from-env")).
  - reflexivity.
  - discriminate.
Defined.

(** ** The asynchronous entry point *)

(** C9: awaiting [_arun] is running [_run]: in every world, for every query
    and credential, it gives the same result and leaves the same world (the
    same request sent, the same formatting). *)
Theorem arun_same_as_run (py : builtins) (self : Lenient.CellRepairAITool)
    (query : pystr) (run_manager : option CallbackManagerForToolRun) (w : world) :
  Lenient._arun py self query run_manager w = Lenient._run py self query run_manager w.
Proof. reflexivity. Qed.

(** ** Facts on strings *)

Lemma startswith_app (p s : pystr) : startswith p (p ++ s) = true.
Proof.
  induction p as [|c p IH]; [reflexivity |].
  cbn [app startswith]. now rewrite N.eqb_refl, IH.
Qed.

Lemma startswith_app_l (p a b : pystr) :
  startswith p a = true -> startswith p (a ++ b) = true.
Proof.
  revert a. induction p as [|c p IH]; intros a H; [reflexivity |].
  destruct a as [|x a]; [discriminate |].
  cbn [app startswith] in *. apply andb_true_iff in H as [Hx Hp].
  now rewrite Hx, (IH a Hp).
Qed.

Lemma contains_here (p s : pystr) : startswith p s = true -> contains p s = true.
Proof. intros H. destruct s; cbn [contains]; now rewrite H. Qed.

Lemma contains_app_r (p a s : pystr) :
  contains p s = true -> contains p (a ++ s) = true.
Proof.
  intros H. induction a as [|c a IH]; [exact H |].
  cbn [app contains]. rewrite IH. apply orb_true_r.
Qed.

Lemma contains_mid (p a b : pystr) : contains p (a ++ p ++ b) = true.
Proof. apply contains_app_r, contains_here, startswith_app. Qed.

Lemma contains_end (p a : pystr) : contains p (a ++ p) = true.
Proof. apply contains_app_r, contains_here. rewrite <- (app_nil_r p) at 2. apply startswith_app. Qed.

Lemma single_line_app (a b : pystr) :
  single_line (a ++ b) = single_line a && single_line b.
Proof. unfold single_line. now rewrite existsb_app, negb_orb. Qed.

Lemma contains_absent (p s : pystr) (c : N) :
  hd_error p = Some c -> existsb (N.eqb c) s = false -> contains p s = false.
Proof.
  destruct p as [|c' p]; [discriminate |]. intros [= ->].
  induction s as [|x s IH]; [reflexivity |].
  cbn [existsb contains startswith]. intros H.
  apply orb_false_iff in H as [Hx Hs]. now rewrite Hx, (IH Hs).
Qed.

Lemma digits_fuel_avoids (c : N) (fuel : nat) (n : Z) (acc : pystr) :
  not_in_numbers c ->
  existsb (N.eqb c) (digits_fuel fuel n acc) = existsb (N.eqb c) acc.
Proof.
  intros Hc. revert n acc.
  induction fuel as [|fuel IH]; intros n acc; [reflexivity |].
  cbn [digits_fuel].
  assert (Hd : (c =? digit_char (n mod 10))%N = false).
  { apply N.eqb_neq. unfold digit_char. unfold not_in_numbers in Hc.
    pose proof (Z.mod_pos_bound n 10 ltac:(lia)). lia. }
  destruct (n <? 10)%Z; [| rewrite IH]; cbn [existsb]; now rewrite Hd.
Qed.

Lemma str_of_int_avoids (c : N) (n : Z) :
  not_in_numbers c -> existsb (N.eqb c) (str_of_int n) = false.
Proof.
  intros Hc. unfold str_of_int, digits.
  destruct (n <? 0)%Z; [rewrite existsb_app |];
    rewrite (digits_fuel_avoids c) by assumption; [| reflexivity].
  cbn [existsb]. rewrite orb_false_r. change (u "-") with [45%N]. cbn [existsb].
  rewrite orb_false_r. apply N.eqb_neq. unfold not_in_numbers in Hc. lia.
Qed.

Lemma str_of_int_single_line (n : Z) : single_line (str_of_int n) = true.
Proof.
  unfold single_line. rewrite str_of_int_avoids; [reflexivity |].
  unfold not_in_numbers. lia.
Qed.

Lemma rstrip_keeps (a b : pystr) (c : N) :
  isspace c = false -> rstrip (a ++ c :: b) = a ++ c :: rstrip b.
Proof.
  intros Hc. induction a as [|x a IH].
  - cbn [app rstrip]. rewrite Hc. now destruct (rstrip b).
  - cbn [app rstrip]. rewrite IH. now destruct a.
Qed.

(** ** How [_run] answers each outcome of the transport *)

Lemma try_except_run (body : M pyval) (t : pystr) (w : world) :
  try_except body
    [(isinstance_Timeout, fun _ => ret (PStr t));
     (isinstance_Exception, fun e => ret (PStr (u "Error: " ++ exn_str e)))] w
  = match body w with
    | (Ok a, w') => (Ok a, w')
    | (Raised e, w') => (Ok (handled t e), w')
    end.
Proof.
  unfold try_except, handled. destruct (body w) as [[a | e] w']; [reflexivity |].
  cbn [find fst snd]. now destruct (exn_cls e).
Qed.

Lemma bind_requests_post {A} (url : pystr) (headers : list (pystr * pystr))
    (body : pyval) (timeout : Z) (k : response -> M A) (w : world) :
  bind (requests_post url headers body timeout) k w
  = match network w (mk_request url headers body timeout) with
    | Ok r => k r (posted w (mk_request url headers body timeout))
    | Raised e => (Raised e, posted w (mk_request url headers body timeout))
    end.
Proof.
  unfold bind, requests_post, posted.
  now destruct (network w (mk_request url headers body timeout)).
Qed.

Lemma runs_as_ret {A} (a : A) : runs_as (ret a) (Ok a).
Proof. intros w. reflexivity. Qed.

Lemma runs_as_lift {A} (o : outcome A) : runs_as (lift o) o.
Proof. intros w. reflexivity. Qed.

Lemma runs_as_bind {A B} (c : M A) (o : outcome A) (k : A -> M B)
    (k' : A -> outcome B) :
  runs_as c o -> (forall a, runs_as (k a) (k' a)) -> runs_as (bind c k) (obind o k').
Proof.
  intros Hc Hk w. unfold bind. rewrite Hc.
  destruct o as [a | e]; [apply Hk | reflexivity].
Qed.

(** Walks a block of [_run] and the function that describes it in step. *)
Ltac run_block :=
  cbv zeta;
  repeat first
    [ apply runs_as_ret
    | apply runs_as_lift
    | apply runs_as_bind; [| intro; cbv beta zeta]
    | match goal with
      | |- runs_as (if ?b then _ else _) _ => destruct b
      end ].

Lemma handled_block (c : M pyval) (o : outcome pyval) (t : pystr) (w : world) :
  runs_as c o ->
  match c w with
  | (Ok a, w') => (Ok a, w')
  | (Raised e, w') => (Ok (handled t e), w')
  end
  = (Ok (match o with Ok v => v | Raised e => handled t e end), w).
Proof. intros Hc. rewrite Hc. now destruct o. Qed.

Lemma lenient_format_returns_str (py : builtins) (data v : pyval) :
  lenient_format py data = Ok v -> exists s, v = PStr s.
Proof.
  unfold lenient_format. intros H. run_obind.
  all: subst v; eexists; reflexivity.
Qed.

Lemma strict_format_returns_str (py : builtins) (data v : pyval) :
  strict_format py data = Ok v -> exists s, v = PStr s.
Proof.
  unfold strict_format. intros H. run_obind.
  all: subst v; eexists; reflexivity.
Qed.

Lemma lenient_run_nokey py self query rm w :
  Lenient.api_key self = [] ->
  Lenient._run py self query rm w
  = (Ok (PStr (u "Error: No API key. Get free key at https://cellrepair.ai/api/ (1000 calls/month free!)")), w).
Proof. unfold Lenient._run. intros ->. reflexivity. Qed.

Lemma lenient_run_raised py self query rm w e :
  Lenient.api_key self <> [] ->
  network w (lenient_request self query) = Raised e ->
  Lenient._run py self query rm w
  = (Ok (handled (u "Error: Request timed out. Try again.") e),
     posted w (lenient_request self query)).
Proof.
  intros Hk Hnet. unfold Lenient._run.
  rewrite (truthy_nonempty _ Hk). cbn [negb]. rewrite try_except_run.
  rewrite bind_requests_post. fold (lenient_request self query). rewrite Hnet.
  reflexivity.
Qed.

Lemma lenient_run_401 py self query rm w r :
  Lenient.api_key self <> [] ->
  network w (lenient_request self query) = Ok r ->
  status_code r = 401%Z ->
  Lenient._run py self query rm w
  = (Ok (PStr (u "Error: Invalid API key. Get one at https://cellrepair.ai/api/")),
     posted w (lenient_request self query)).
Proof.
  intros Hk Hnet Hs. unfold Lenient._run.
  rewrite (truthy_nonempty _ Hk). cbn [negb]. rewrite try_except_run.
  rewrite bind_requests_post. fold (lenient_request self query). rewrite Hnet.
  rewrite Hs. reflexivity.
Qed.

Lemma lenient_run_status py self query rm w r :
  Lenient.api_key self <> [] ->
  network w (lenient_request self query) = Ok r ->
  status_code r <> 401%Z -> status_code r <> 200%Z ->
  Lenient._run py self query rm w
  = (Ok (PStr (u "Error: API returned " ++ str_of_int (status_code r))),
     posted w (lenient_request self query)).
Proof.
  intros Hk Hnet H401 H200. unfold Lenient._run.
  rewrite (truthy_nonempty _ Hk). cbn [negb]. rewrite try_except_run.
  rewrite bind_requests_post. fold (lenient_request self query). rewrite Hnet.
  apply Z.eqb_neq in H401, H200. rewrite H401, H200. reflexivity.
Qed.

Lemma lenient_run_200 py self query rm w r :
  Lenient.api_key self <> [] ->
  network w (lenient_request self query) = Ok r ->
  status_code r = 200%Z ->
  Lenient._run py self query rm w
  = (Ok (match obind (json r) (lenient_format py) with
         | Ok v => v
         | Raised e => handled (u "Error: Request timed out. Try again.") e
         end),
     posted w (lenient_request self query)).
Proof.
  intros Hk Hnet Hs. unfold Lenient._run.
  rewrite (truthy_nonempty _ Hk). cbn [negb]. rewrite try_except_run.
  rewrite bind_requests_post. fold (lenient_request self query). rewrite Hnet.
  rewrite Hs. cbn [Z.eqb Pos.eqb negb].
  apply handled_block. unfold lenient_format. run_block.
Qed.

Lemma strict_run_raised py self query ctx rm w e :
  network w (strict_request self query ctx) = Raised e ->
  Strict._run py self query ctx rm w
  = (Ok (handled (u "Error: Request timed out. Please try again.") e),
     posted w (strict_request self query ctx)).
Proof.
  intros Hnet. unfold Strict._run. rewrite try_except_run.
  cbv zeta. rewrite bind_requests_post. fold (strict_request self query ctx).
  rewrite Hnet.
  reflexivity.
Qed.

Lemma strict_run_401 py self query ctx rm w r :
  network w (strict_request self query ctx) = Ok r ->
  status_code r = 401%Z ->
  Strict._run py self query ctx rm w
  = (Ok (PStr (u "Error: Invalid API key. Get a free key at https://cellrepair.ai/api/?utm_source=langchain")),
     posted w (strict_request self query ctx)).
Proof.
  intros Hnet Hs. unfold Strict._run. rewrite try_except_run.
  cbv zeta. rewrite bind_requests_post. fold (strict_request self query ctx).
  rewrite Hnet.
  rewrite Hs. reflexivity.
Qed.

Lemma strict_run_status py self query ctx rm w r :
  network w (strict_request self query ctx) = Ok r ->
  status_code r <> 401%Z -> status_code r <> 200%Z ->
  Strict._run py self query ctx rm w
  = (Ok (PStr (u "Error: API returned status " ++ str_of_int (status_code r))),
     posted w (strict_request self query ctx)).
Proof.
  intros Hnet H401 H200. unfold Strict._run. rewrite try_except_run.
  cbv zeta. rewrite bind_requests_post. fold (strict_request self query ctx).
  rewrite Hnet.
  apply Z.eqb_neq in H401, H200. rewrite H401, H200. reflexivity.
Qed.

Lemma strict_run_200 py self query ctx rm w r :
  network w (strict_request self query ctx) = Ok r ->
  status_code r = 200%Z ->
  Strict._run py self query ctx rm w
  = (Ok (match obind (json r) (strict_format py) with
         | Ok v => v
         | Raised e => handled (u "Error: Request timed out. Please try again.") e
         end),
     posted w (strict_request self query ctx)).
Proof.
  intros Hnet Hs. unfold Strict._run. rewrite try_except_run.
  cbv zeta. rewrite bind_requests_post. fold (strict_request self query ctx).
  rewrite Hnet.
  rewrite Hs. cbn [Z.eqb Pos.eqb negb].
  apply handled_block. unfold strict_format. run_block.
Qed.

Lemma handled_is_error (t : pystr) (e : exn) :
  startswith (u "Error: ") t = true ->
  exists s, handled t e = PStr s /\ startswith (u "Error: ") s = true.
Proof.
  intros Ht. unfold handled. eexists. split; [reflexivity |].
  destruct (isinstance_Timeout (exn_cls e)); [exact Ht | apply startswith_app].
Qed.

Lemma lenient_run_world py self query rm w :
  Lenient.api_key self <> [] ->
  snd (Lenient._run py self query rm w) = posted w (lenient_request self query).
Proof.
  intros Hk.
  destruct (network w (lenient_request self query)) as [r | e] eqn:Hnet.
  - destruct (Z.eq_dec (status_code r) 401) as [H401 | H401].
    + now rewrite (lenient_run_401 py self query rm w r).
    + destruct (Z.eq_dec (status_code r) 200) as [H200 | H200].
      * now rewrite (lenient_run_200 py self query rm w r).
      * now rewrite (lenient_run_status py self query rm w r).
  - now rewrite (lenient_run_raised py self query rm w e).
Qed.

Lemma strict_run_world py self query ctx rm w :
  snd (Strict._run py self query ctx rm w) = posted w (strict_request self query ctx).
Proof.
  destruct (network w (strict_request self query ctx)) as [r | e] eqn:Hnet.
  - destruct (Z.eq_dec (status_code r) 401) as [H401 | H401].
    + now rewrite (strict_run_401 py self query ctx rm w r).
    + destruct (Z.eq_dec (status_code r) 200) as [H200 | H200].
      * now rewrite (strict_run_200 py self query ctx rm w r).
      * now rewrite (strict_run_status py self query ctx rm w r).
  - now rewrite (strict_run_raised py self query ctx rm w e).
Qed.

Lemma lenient_run_returns_str py self query rm w :
  exists s, fst (Lenient._run py self query rm w) = Ok (PStr s).
Proof.
  destruct (Lenient.api_key self) as [|c k] eqn:Hkey.
  { rewrite lenient_run_nokey by assumption. eexists. reflexivity. }
  assert (Hk : Lenient.api_key self <> []) by (rewrite Hkey; discriminate).
  destruct (network w (lenient_request self query)) as [r | e] eqn:Hnet.
  - destruct (Z.eq_dec (status_code r) 401) as [H401 | H401].
    { rewrite (lenient_run_401 py self query rm w r) by assumption.
      eexists. reflexivity. }
    destruct (Z.eq_dec (status_code r) 200) as [H200 | H200].
    + rewrite (lenient_run_200 py self query rm w r) by assumption. cbn [fst].
      destruct (obind (json r) (lenient_format py)) as [v | e] eqn:Hf.
      * destruct (json r) as [data | e]; [| discriminate Hf]. cbn [obind] in Hf.
        destruct (lenient_format_returns_str py data v Hf) as [s ->].
        eexists. reflexivity.
      * eexists. reflexivity.
    + rewrite (lenient_run_status py self query rm w r) by assumption.
      eexists. reflexivity.
  - rewrite (lenient_run_raised py self query rm w e) by assumption.
    eexists. reflexivity.
Qed.

Lemma strict_run_returns_str py self query ctx rm w :
  exists s, fst (Strict._run py self query ctx rm w) = Ok (PStr s).
Proof.
  destruct (network w (strict_request self query ctx)) as [r | e] eqn:Hnet.
  - destruct (Z.eq_dec (status_code r) 401) as [H401 | H401].
    { rewrite (strict_run_401 py self query ctx rm w r) by assumption.
      eexists. reflexivity. }
    destruct (Z.eq_dec (status_code r) 200) as [H200 | H200].
    + rewrite (strict_run_200 py self query ctx rm w r) by assumption. cbn [fst].
      destruct (obind (json r) (strict_format py)) as [v | e] eqn:Hf.
      * destruct (json r) as [data | e]; [| discriminate Hf]. cbn [obind] in Hf.
        destruct (strict_format_returns_str py data v Hf) as [s ->].
        eexists. reflexivity.
      * eexists. reflexivity.
    + rewrite (strict_run_status py self query ctx rm w r) by assumption.
      eexists. reflexivity.
  - rewrite (strict_run_raised py self query ctx rm w e) by assumption.
    eexists. reflexivity.
Qed.

(** ** The run method never raises *)

(** C1: for every query, credential (empty or not), context and world --
    whatever [requests.post] does with the request (raise a timeout or any
    other exception, or answer with any status code and any body, JSON or
    not, of any shape) -- [_run] of either tool raises nothing and returns a
    string. *)
Theorem run_never_raises (py : builtins) (w : world) (query : pystr)
    (run_manager : option CallbackManagerForToolRun) :
  (forall self : Lenient.CellRepairAITool,
     exists s, fst (Lenient._run py self query run_manager w) = Ok (PStr s))
  /\ (forall (self : Strict.CellRepairTool) (context : pyval),
     exists s, fst (Strict._run py self query context run_manager w) = Ok (PStr s)).
Proof.
  split; intros.
  - apply lenient_run_returns_str.
  - apply strict_run_returns_str.
Qed.

(** ** One request per call *)

(** C7: a call of [_run] calls [requests.post] exactly once -- the log of
    requests grows by the one request built from the tool and the query,
    whatever the outcome, so nothing is retried -- except that the lenient
    tool with an empty credential returns its missing-key error string and
    leaves the world as it was: no request at all. *)
Theorem one_request_per_call (py : builtins) (w : world) (query : pystr)
    (run_manager : option CallbackManagerForToolRun) :
  (forall self : Lenient.CellRepairAITool,
     Lenient.api_key self = [] ->
     Lenient._run py self query run_manager w
     = (Ok (PStr (u "Error: No API key. Get free key at https://cellrepair.ai/api/ (1000 calls/month free!)")), w))
  /\ (forall self : Lenient.CellRepairAITool,
     Lenient.api_key self <> [] ->
     sent (snd (Lenient._run py self query run_manager w))
     = sent w ++ [lenient_request self query])
  /\ (forall (self : Strict.CellRepairTool) (context : pyval),
     sent (snd (Strict._run py self query context run_manager w))
     = sent w ++ [strict_request self query context]).
Proof.
  repeat split; intros.
  - now apply lenient_run_nokey.
  - now rewrite lenient_run_world.
  - now rewrite strict_run_world.
Qed.

Lemma one_request_per_call_witness :
  Lenient._run demo_builtins demo_unkeyed (u "hello") None (answering 200)
  = (Ok (PStr (u "Error: No API key. Get free key at https://cellrepair.ai/api/ (1000 calls/month free!)")),
     answering 200)
  /\ sent (snd (Lenient._run demo_builtins demo_lenient (u "hello") None (answering 200)))
     = sent (answering 200) ++ [lenient_request demo_lenient (u "hello")]
  /\ sent (snd (Strict._run demo_builtins demo_strict (u "hello") PNone None (answering 200)))
     = sent (answering 200) ++ [strict_request demo_strict (u "hello") PNone].
Proof.
  pose proof (one_request_per_call demo_builtins (answering 200) (u "hello") None)
    as [H0 [H1 H2]].
  split; [| split].
  - apply H0. reflexivity.
  - apply H1. discriminate.
  - apply H2.
Defined.

(** ** Status codes *)

(** C5: when the response has status 401, [_run] of either tool returns an
    error string that contains "Invalid" and "key"; when it has any other
    status than 200 (500, say), the error string returned contains that status
    code in decimal.  (The lenient tool sends a request, and so sees a
    status, only with a non-empty credential.) *)
Theorem status_code_classification (py : builtins) (w : world) (query : pystr)
    (run_manager : option CallbackManagerForToolRun) (r : response) :
  (forall self : Lenient.CellRepairAITool,
     Lenient.api_key self <> [] ->
     network w (lenient_request self query) = Ok r ->
     (status_code r = 401%Z ->
      exists s, fst (Lenient._run py self query run_manager w) = Ok (PStr s)
        /\ startswith (u "Error: ") s = true
        /\ contains (u "Invalid") s = true /\ contains (u "key") s = true)
     /\ (status_code r <> 401%Z -> status_code r <> 200%Z ->
      exists s, fst (Lenient._run py self query run_manager w) = Ok (PStr s)
        /\ startswith (u "Error: ") s = true
        /\ contains (str_of_int (status_code r)) s = true))
  /\ (forall (self : Strict.CellRepairTool) (context : pyval),
     network w (strict_request self query context) = Ok r ->
     (status_code r = 401%Z ->
      exists s, fst (Strict._run py self query context run_manager w) = Ok (PStr s)
        /\ startswith (u "Error: ") s = true
        /\ contains (u "Invalid") s = true /\ contains (u "key") s = true)
     /\ (status_code r <> 401%Z -> status_code r <> 200%Z ->
      exists s, fst (Strict._run py self query context run_manager w) = Ok (PStr s)
        /\ startswith (u "Error: ") s = true
        /\ contains (str_of_int (status_code r)) s = true)).
Proof.
  split.
  - intros self Hk Hnet. split.
    + intros Hs. rewrite (lenient_run_401 py self query run_manager w r) by assumption.
      eexists. split; [reflexivity |]. repeat split; vm_compute; reflexivity.
    + intros H401 H200.
      rewrite (lenient_run_status py self query run_manager w r) by assumption.
      eexists. split; [reflexivity |]. split.
      * apply startswith_app_l. vm_compute. reflexivity.
      * apply contains_end.
  - intros self context Hnet. split.
    + intros Hs.
      rewrite (strict_run_401 py self query context run_manager w r) by assumption.
      eexists. split; [reflexivity |]. repeat split; vm_compute; reflexivity.
    + intros H401 H200.
      rewrite (strict_run_status py self query context run_manager w r) by assumption.
      eexists. split; [reflexivity |]. split.
      * apply startswith_app_l. vm_compute. reflexivity.
      * apply contains_end.
Qed.

Lemma status_code_classification_witness :
  (exists s, fst (Lenient._run demo_builtins demo_lenient (u "hello") None (answering 401))
             = Ok (PStr s)
     /\ startswith (u "Error: ") s = true
     /\ contains (u "Invalid") s = true /\ contains (u "key") s = true)
  /\ (exists s, fst (Strict._run demo_builtins demo_strict (u "hello") PNone None
                       (answering 500))
             = Ok (PStr s)
     /\ startswith (u "Error: ") s = true
     /\ contains (u "500") s = true).
Proof.
  split.
  - apply (proj1 (status_code_classification demo_builtins (answering 401) (u "hello")
                    None (mk_response 401 (Ok (PDict []))))
             demo_lenient).
    + discriminate.
    + reflexivity.
    + reflexivity.
  - apply (proj2 (status_code_classification demo_builtins (answering 500) (u "hello")
                    None (mk_response 500 (Ok (PDict []))))
             demo_strict PNone).
    + reflexivity.
    + discriminate.
    + discriminate.
Defined.

(** ** Error strings *)

Lemma status_line_is_error_line (prefix : pystr) (n : Z) :
  startswith (u "Error: ") prefix = true ->
  single_line prefix = true ->
  existsb (N.eqb 104) prefix = false ->
  error_line false (prefix ++ str_of_int n).
Proof.
  intros Hp Hl Hh. repeat split.
  - now apply startswith_app_l.
  - now rewrite single_line_app, Hl, str_of_int_single_line.
  - apply (contains_absent _ _ 104%N); [reflexivity |].
    rewrite existsb_app, Hh, str_of_int_avoids; [reflexivity |].
    unfold not_in_numbers. lia.
Qed.

(** C6, as the code has it: every error result of [_run] begins with
    "Error: ".  The missing-credential result of the lenient tool and the
    invalid-key (401) result of either tool are single lines that say where a
    key is obtained; the results for another status than 200 and for a
    timeout are single lines that do not say it; the result for any other
    exception [e] -- raised by the transport, by [response.json()] or while
    the body is formatted -- is "Error: " followed by [str(e)] and nothing
    else. *)
Theorem error_results (py : builtins) (w : world) (query : pystr)
    (run_manager : option CallbackManagerForToolRun) :
  (forall self : Lenient.CellRepairAITool,
     let result := fst (Lenient._run py self query run_manager w) in
     let outcome := network w (lenient_request self query) in
     (Lenient.api_key self = [] ->
      exists s, result = Ok (PStr s) /\ error_line true s)
     /\ (Lenient.api_key self <> [] ->
      forall r, outcome = Ok r ->
        (status_code r = 401%Z -> exists s, result = Ok (PStr s) /\ error_line true s)
        /\ (status_code r <> 401%Z -> status_code r <> 200%Z ->
            exists s, result = Ok (PStr s) /\ error_line false s)
        /\ (status_code r = 200%Z ->
            forall e, obind (json r) (lenient_format py) = Raised e ->
            isinstance_Timeout (exn_cls e) = false ->
            result = Ok (PStr (u "Error: " ++ exn_str e))))
     /\ (Lenient.api_key self <> [] ->
      forall e, outcome = Raised e ->
        (isinstance_Timeout (exn_cls e) = true ->
         exists s, result = Ok (PStr s) /\ error_line false s)
        /\ (isinstance_Timeout (exn_cls e) = false ->
            result = Ok (PStr (u "Error: " ++ exn_str e)))))
  /\ (forall (self : Strict.CellRepairTool) (context : pyval),
     let result := fst (Strict._run py self query context run_manager w) in
     let outcome := network w (strict_request self query context) in
     (forall r, outcome = Ok r ->
        (status_code r = 401%Z -> exists s, result = Ok (PStr s) /\ error_line true s)
        /\ (status_code r <> 401%Z -> status_code r <> 200%Z ->
            exists s, result = Ok (PStr s) /\ error_line false s)
        /\ (status_code r = 200%Z ->
            forall e, obind (json r) (strict_format py) = Raised e ->
            isinstance_Timeout (exn_cls e) = false ->
            result = Ok (PStr (u "Error: " ++ exn_str e))))
     /\ (forall e, outcome = Raised e ->
        (isinstance_Timeout (exn_cls e) = true ->
         exists s, result = Ok (PStr s) /\ error_line false s)
        /\ (isinstance_Timeout (exn_cls e) = false ->
            result = Ok (PStr (u "Error: " ++ exn_str e))))).
Proof.
  split.
  - intros self result outcome. subst result outcome. split; [| split].
    + intros Hk. rewrite lenient_run_nokey by assumption.
      eexists. split; [reflexivity |]. repeat split; vm_compute; reflexivity.
    + intros Hk r Hnet. split; [| split].
      * intros Hs. rewrite (lenient_run_401 py self query run_manager w r) by assumption.
        eexists. split; [reflexivity |]. repeat split; vm_compute; reflexivity.
      * intros H401 H200.
        rewrite (lenient_run_status py self query run_manager w r) by assumption.
        eexists. split; [reflexivity |].
        apply status_line_is_error_line; vm_compute; reflexivity.
      * intros Hs e He Ht.
        rewrite (lenient_run_200 py self query run_manager w r) by assumption.
        cbn [fst]. rewrite He. unfold handled. now rewrite Ht.
    + intros Hk e Hnet.
      rewrite (lenient_run_raised py self query run_manager w e) by assumption.
      unfold handled. cbn [fst]. split; intros ->.
      * eexists. split; [reflexivity |]. repeat split; vm_compute; reflexivity.
      * reflexivity.
  - intros self context result outcome. subst result outcome. split.
    + intros r Hnet. split; [| split].
      * intros Hs.
        rewrite (strict_run_401 py self query context run_manager w r) by assumption.
        eexists. split; [reflexivity |]. repeat split; vm_compute; reflexivity.
      * intros H401 H200.
        rewrite (strict_run_status py self query context run_manager w r) by assumption.
        eexists. split; [reflexivity |].
        apply status_line_is_error_line; vm_compute; reflexivity.
      * intros Hs e He Ht.
        rewrite (strict_run_200 py self query context run_manager w r) by assumption.
        cbn [fst]. rewrite He. unfold handled. now rewrite Ht.
    + intros e Hnet.
      rewrite (strict_run_raised py self query context run_manager w e) by assumption.
      unfold handled. cbn [fst]. split; intros ->.
      * eexists. split; [reflexivity |]. repeat split; vm_compute; reflexivity.
      * reflexivity.
Qed.

Lemma error_results_witness :
  (exists s, fst (Lenient._run demo_builtins demo_unkeyed (u "hello") None (answering 200))
             = Ok (PStr s) /\ error_line true s)
  /\ (exists s, fst (Strict._run demo_builtins demo_strict (u "hello") PNone None
                       (answering 500))
             = Ok (PStr s) /\ error_line false s).
Proof.
  split.
  - pose proof (proj1 (error_results demo_builtins (answering 200) (u "hello") None)
                  demo_unkeyed) as H.
    cbv zeta in H. apply (proj1 H). reflexivity.
  - pose proof (proj2 (error_results demo_builtins (answering 500) (u "hello") None)
                  demo_strict PNone) as H.
    cbv zeta in H.
    apply (proj1 (proj2 (proj1 H (mk_response 500 (Ok (PDict []))) eq_refl))).
    + discriminate.
    + discriminate.
Defined.

(** C6 as stated fails: the result for status 500 is an error string that
    says nothing about where a key is obtained. *)
Lemma error_results_counterexample :
  fst (Lenient._run demo_builtins demo_lenient (u "hello") None (answering 500))
  = Ok (PStr (u "Error: API returned 500"))
  /\ fst (Strict._run demo_builtins demo_strict (u "hello") PNone None (answering 500))
  = Ok (PStr (u "Error: API returned status 500"))
  /\ contains (u "cellrepair.ai") (u "Error: API returned 500") = false
  /\ contains (u "http") (u "Error: API returned 500") = false
  /\ contains (u "cellrepair.ai") (u "Error: API returned status 500") = false
  /\ contains (u "http") (u "Error: API returned status 500") = false.
Proof. repeat split; vm_compute; reflexivity. Qed.

(** ** The empty query *)

Lemma lenient_run_determined py self q1 q2 rm w1 w2 :
  Lenient.api_key self <> [] ->
  network w1 (lenient_request self q1) = network w2 (lenient_request self q2) ->
  fst (Lenient._run py self q1 rm w1) = fst (Lenient._run py self q2 rm w2).
Proof.
  intros Hk Hnet.
  destruct (network w2 (lenient_request self q2)) as [r | e] eqn:H2.
  - destruct (Z.eq_dec (status_code r) 401) as [H401 | H401].
    { now rewrite (lenient_run_401 py self q1 rm w1 r),
        (lenient_run_401 py self q2 rm w2 r). }
    destruct (Z.eq_dec (status_code r) 200) as [H200 | H200].
    + now rewrite (lenient_run_200 py self q1 rm w1 r),
        (lenient_run_200 py self q2 rm w2 r).
    + now rewrite (lenient_run_status py self q1 rm w1 r),
        (lenient_run_status py self q2 rm w2 r).
  - now rewrite (lenient_run_raised py self q1 rm w1 e),
      (lenient_run_raised py self q2 rm w2 e).
Qed.

Lemma strict_run_determined py self q1 q2 c1 c2 rm w1 w2 :
  network w1 (strict_request self q1 c1) = network w2 (strict_request self q2 c2) ->
  fst (Strict._run py self q1 c1 rm w1) = fst (Strict._run py self q2 c2 rm w2).
Proof.
  intros Hnet.
  destruct (network w2 (strict_request self q2 c2)) as [r | e] eqn:H2.
  - destruct (Z.eq_dec (status_code r) 401) as [H401 | H401].
    { now rewrite (strict_run_401 py self q1 c1 rm w1 r),
        (strict_run_401 py self q2 c2 rm w2 r). }
    destruct (Z.eq_dec (status_code r) 200) as [H200 | H200].
    + now rewrite (strict_run_200 py self q1 c1 rm w1 r),
        (strict_run_200 py self q2 c2 rm w2 r).
    + now rewrite (strict_run_status py self q1 c1 rm w1 r),
        (strict_run_status py self q2 c2 rm w2 r).
  - now rewrite (strict_run_raised py self q1 c1 rm w1 e),
      (strict_run_raised py self q2 c2 rm w2 e).
Qed.

(** C8, as the code has it: [_run] does not look at the query.  With the
    empty query the lenient tool without a credential returns its
    missing-key error and sends nothing; otherwise either tool sends its one
    request, whose body carries the query "", and returns what it would
    return for any other query to which the network gives the same outcome:
    the result is decided by the transport, not by the query. *)
Theorem empty_query_is_sent (py : builtins) (w : world)
    (run_manager : option CallbackManagerForToolRun) :
  (forall self : Lenient.CellRepairAITool,
     (Lenient.api_key self = [] ->
      Lenient._run py self (u "") run_manager w
      = (Ok (PStr (u "Error: No API key. Get free key at https://cellrepair.ai/api/ (1000 calls/month free!)")), w))
     /\ (Lenient.api_key self <> [] ->
      sent (snd (Lenient._run py self (u "") run_manager w))
      = sent w ++ [lenient_request self (u "")]
      /\ lookup (u "query") (match req_json (lenient_request self (u "")) with
                             | PDict d => d
                             | _ => []
                             end) = Some (PStr [])
      /\ forall query' w',
          network w' (lenient_request self query')
          = network w (lenient_request self (u "")) ->
          fst (Lenient._run py self query' run_manager w')
          = fst (Lenient._run py self (u "") run_manager w)))
  /\ (forall (self : Strict.CellRepairTool) (context : pyval),
     sent (snd (Strict._run py self (u "") context run_manager w))
     = sent w ++ [strict_request self (u "") context]
     /\ lookup (u "query") (match req_json (strict_request self (u "") context) with
                            | PDict d => d
                            | _ => []
                            end) = Some (PStr [])
     /\ forall query' w',
         network w' (strict_request self query' context)
         = network w (strict_request self (u "") context) ->
         fst (Strict._run py self query' context run_manager w')
         = fst (Strict._run py self (u "") context run_manager w)).
Proof.
  split.
  - intros self. split.
    + now apply lenient_run_nokey.
    + intros Hk. split; [| split].
      * now rewrite lenient_run_world.
      * reflexivity.
      * intros query' w' Hnet. now apply lenient_run_determined.
  - intros self context. split; [| split].
    + now rewrite strict_run_world.
    + reflexivity.
    + intros query' w' Hnet. now apply strict_run_determined.
Qed.

Lemma empty_query_is_sent_witness :
  sent (snd (Lenient._run demo_builtins demo_lenient (u "") None
               (replying (PDict insight_items))))
  = sent (replying (PDict insight_items)) ++ [lenient_request demo_lenient (u "")]
  /\ fst (Lenient._run demo_builtins demo_lenient (u "hello") None
            (replying (PDict insight_items)))
     = fst (Lenient._run demo_builtins demo_lenient (u "") None
              (replying (PDict insight_items)))
  /\ Lenient._run demo_builtins demo_unkeyed (u "") None (replying (PDict insight_items))
     = (Ok (PStr (u "Error: No API key. Get free key at https://cellrepair.ai/api/ (1000 calls/month free!)")),
        replying (PDict insight_items)).
Proof.
  pose proof (proj1 (empty_query_is_sent demo_builtins (replying (PDict insight_items))
                       None)) as H.
  split; [| split].
  - apply (proj2 (H demo_lenient)). discriminate.
  - apply (proj2 (H demo_lenient)); [discriminate | reflexivity].
  - apply (proj1 (H demo_unkeyed)). reflexivity.
Defined.

(** C8 as stated fails: with the empty query a tool that holds a credential
    does call the network, and when the service answers 200 the result is the
    formatted answer, not an error string. *)
Lemma empty_query_counterexample :
  sent (snd (Lenient._run demo_builtins demo_lenient (u "") None
               (replying (PDict insight_items))))
  = [lenient_request demo_lenient (u "")]
  /\ fst (Lenient._run demo_builtins demo_lenient (u "") None
            (replying (PDict insight_items)))
     = Ok (PStr (u "CellRepair.AI Network Response:\n\nUse caching\n\nConfidence: 87%\nAgents consulted: 42\n"))
  /\ sent (snd (Strict._run demo_builtins demo_strict (u "") PNone None
                  (replying (PDict insight_items))))
     = [strict_request demo_strict (u "") PNone]
  /\ fst (Strict._run demo_builtins demo_strict (u "") PNone None
            (replying (PDict insight_items)))
     = Ok (PStr (u "CellRepair.AI Analysis:\n\nUse caching\n\nConfidence: 87.0%\nAgents Consulted: 42\nImplementation Time: Unknown\nROI Estimate: Unknown")).
Proof. repeat split; vm_compute; reflexivity. Qed.

(** ** Optional fields *)

(** C3 on the code: the strict tool writes a placeholder for an absent
    [confidence] or [agents_consulted] (0.0% and 0), but the lenient tool
    reads both with [data[...]]: on a 200 body without one of them the
    KeyError reaches its generic handler and the call returns
    "Error: 'confidence'" or "Error: 'agents_consulted'" in place of the
    formatted answer. *)
Theorem absent_field_in_lenient_tool (py : builtins) :
  fst (Lenient._run py demo_lenient (u "hello") None (replying body_without_confidence))
  = Ok (PStr (u "Error: 'confidence'"))
  /\ fst (Lenient._run py demo_lenient (u "hello") None (replying body_without_agents))
     = Ok (PStr (u "Error: 'agents_consulted'"))
  /\ fst (Strict._run py demo_strict (u "hello") PNone None
            (replying body_without_confidence))
     = Ok (PStr (u "CellRepair.AI Analysis:\n\nUse caching\n\nConfidence: 0.0%\nAgents Consulted: 42\nImplementation Time: Unknown\nROI Estimate: Unknown"))
  /\ fst (Strict._run py demo_strict (u "hello") PNone None
            (replying body_without_agents))
     = Ok (PStr (u "CellRepair.AI Analysis:\n\nUse caching\n\nConfidence: 87.0%\nAgents Consulted: 0\nImplementation Time: Unknown\nROI Estimate: Unknown")).
Proof. repeat split; vm_compute; reflexivity. Qed.

(** What does hold in the strict tool: a body with none of the keys it
    looks up is formatted with every placeholder and no optional section. *)
Lemma strict_format_placeholders (py : builtins) (d : list (pystr * pyval)) :
  lookup (u "insight") d = None ->
  lookup (u "agents_consulted") d = None ->
  lookup (u "predictive_intelligence") d = None ->
  strict_format py (PDict d)
  = Ok (PStr (u "CellRepair.AI Analysis:\n\nNo recommendation available\n\nConfidence: 0.0%\nAgents Consulted: 0\nImplementation Time: Unknown\nROI Estimate: Unknown")).
Proof.
  intros Hi Ha Hp. unfold strict_format, py_get.
  rewrite Hi, Ha, Hp. vm_compute. reflexivity.
Qed.

(** What does hold in the lenient tool: a body with the three fields it
    requires and without [predictive_intelligence] and [learning_exchange]
    is formatted without the optional sections. *)
Lemma lenient_format_without_sections (py : builtins) (d ins : list (pystr * pyval))
    (rec : pystr) (c : float) (n : Z) :
  lookup (u "insight") d = Some (PDict ins) ->
  lookup (u "recommendation") ins = Some (PStr rec) ->
  lookup (u "confidence") ins = Some (PFloat c) ->
  lookup (u "agents_consulted") d = Some (PInt n) ->
  lookup (u "predictive_intelligence") d = None ->
  lookup (u "learning_exchange") d = None ->
  lenient_format py (PDict d)
  = Ok (PStr (u "CellRepair.AI Network Response:\n\n" ++ rec
              ++ u "\n\nConfidence: " ++ format_f 0 (Prim2SF (c * 100)%float)
              ++ u "%\nAgents consulted: " ++ str_of_int n ++ u "\n")).
Proof.
  intros Hi Hr Hc Ha Hp Hl. unfold lenient_format, getitem, py_in.
  rewrite Hi. cbn [obind]. rewrite Hr, Hc, Ha, Hp, Hl. cbn [obind].
  change (py_mul (PFloat c) 100) with (Ok (PFloat (c * 100)%float)).
  cbn [obind py_format_f py_str py_repr].
  rewrite <- !app_assoc. reflexivity.
Qed.

(** ** Formatting a success body *)

Lemma lstrip_keeps (s : pystr) (c : N) :
  hd_error s = Some c -> isspace c = false -> lstrip s = s.
Proof.
  destruct s as [|x s]; [discriminate |]. intros [= ->] Hc.
  cbn [lstrip]. now rewrite Hc.
Qed.

Lemma lenient_format_two_questions (py : builtins) (d ins pi : list (pystr * pyval))
    (rec q1 q2 : pystr) (c : float) (n : Z) :
  lookup (u "insight") d = Some (PDict ins) ->
  lookup (u "recommendation") ins = Some (PStr rec) ->
  lookup (u "confidence") ins = Some (PFloat c) ->
  lookup (u "agents_consulted") d = Some (PInt n) ->
  lookup (u "predictive_intelligence") d = Some (PDict pi) ->
  lookup (u "you_will_probably_ask_next") pi = Some (PList [PStr q1; PStr q2]) ->
  lookup (u "learning_exchange") d = None ->
  lenient_format py (PDict d)
  = Ok (PStr (u "CellRepair.AI Network Response:\n\n" ++ rec
              ++ u "\n\nConfidence: " ++ format_f 0 (Prim2SF (c * 100)%float)
              ++ u "%\nAgents consulted: " ++ str_of_int n
              ++ u "\n\nYou'll probably ask next:\n  1. " ++ q1
              ++ u "\n  2. " ++ q2 ++ u "\n")).
Proof.
  intros Hi Hr Hc Ha Hp Hq Hl. unfold lenient_format, getitem, py_in, py_get.
  rewrite Hi. cbn [obind]. rewrite Hr, Hc, Ha, Hp. cbn [obind]. rewrite Hq, Hl.
  change (py_mul (PFloat c) 100) with (Ok (PFloat (c * 100)%float)).
  cbn [obind py_format_f py_str py_repr truthy py_iter enumerate fold_left fst snd].
  rewrite <- !app_assoc. reflexivity.
Qed.

Lemma strict_format_two_questions (py : builtins) (d ins pi : list (pystr * pyval))
    (rec q1 q2 : pystr) (c : float) (n : Z) :
  lookup (u "insight") d = Some (PDict ins) ->
  lookup (u "recommendation") ins = Some (PStr rec) ->
  lookup (u "confidence") ins = Some (PFloat c) ->
  lookup (u "implementation_time") ins = None ->
  lookup (u "roi_estimate") ins = None ->
  lookup (u "agents_consulted") d = Some (PInt n) ->
  lookup (u "predictive_intelligence") d = Some (PDict pi) ->
  lookup (u "you_will_probably_ask_next") pi = Some (PList [PStr q1; PStr q2]) ->
  strict_format py (PDict d)
  = Ok (PStr (strip
          (u "CellRepair.AI Analysis:\n\n" ++ rec
           ++ u "\n\nConfidence: " ++ format_f 1 (Prim2SF (c * 100)%float)
           ++ u "%\nAgents Consulted: " ++ str_of_int n
           ++ u "\nImplementation Time: Unknown\nROI Estimate: Unknown\n\n\nPredictive Intelligence (3 steps ahead):\n  1. "
           ++ q1 ++ u "\n  2. " ++ q2 ++ u "\n"))).
Proof.
  intros Hi Hr Hc Ht Hroi Ha Hp Hq. unfold strict_format, py_get.
  rewrite Hi. cbn [obind]. rewrite Hr, Hc, Ht, Hroi, Ha, Hp. cbn [obind]. rewrite Hq.
  change (py_mul (PFloat c) 100) with (Ok (PFloat (c * 100)%float)).
  cbn [obind py_format_f py_str py_repr truthy py_iter enumerate fold_left fst snd].
  rewrite <- !app_assoc. reflexivity.
Qed.

Lemma strip_two_questions (head q1 q2 : pystr) (c : N) :
  hd_error head = Some c -> isspace c = false ->
  strip (head ++ q1 ++ u "\n  2. " ++ q2 ++ u "\n")
  = head ++ q1 ++ u "\n  2." ++ rstrip (u " " ++ q2 ++ u "\n").
Proof.
  intros Hh Hc. unfold strip.
  rewrite (lstrip_keeps _ c); [| now destruct head | assumption].
  replace (head ++ q1 ++ u "\n  2. " ++ q2 ++ u "\n")
    with ((head ++ q1 ++ u "\n  2") ++ 46%N :: (u " " ++ q2 ++ u "\n"))
    by (rewrite <- !app_assoc; reflexivity).
  rewrite rstrip_keeps by reflexivity.
  rewrite <- !app_assoc. reflexivity.
Qed.

Lemma confidence_87 :
  format_f 0 (Prim2SF (0.87 * 100)%float) = u "87"
  /\ format_f 1 (Prim2SF (0.87 * 100)%float) = u "87.0"
  /\ str_of_int 42 = u "42".
Proof. repeat split; vm_compute; reflexivity. Qed.

Lemma lenient_format_success_body (py : builtins) (q1 q2 : pystr) :
  lenient_format py (success_body q1 q2)
  = Ok (PStr (u "CellRepair.AI Network Response:\n\nUse caching\n\nConfidence: 87%\nAgents consulted: 42\n\nYou'll probably ask next:\n  1. "
              ++ q1 ++ u "\n  2. " ++ q2 ++ u "\n")).
Proof.
  unfold success_body.
  rewrite (lenient_format_two_questions py _
             [(u "recommendation", PStr (u "Use caching")); (u "confidence", PFloat 0.87)]
             [(u "you_will_probably_ask_next", PList [PStr q1; PStr q2])]
             (u "Use caching") q1 q2 0.87 42);
    [| vm_compute; reflexivity ..].
  destruct confidence_87 as [-> [_ ->]].
  decode_literals. reflexivity.
Qed.

Lemma strict_format_success_body (py : builtins) (q1 q2 : pystr) :
  strict_format py (success_body q1 q2)
  = Ok (PStr (u "CellRepair.AI Analysis:\n\nUse caching\n\nConfidence: 87.0%\nAgents Consulted: 42\nImplementation Time: Unknown\nROI Estimate: Unknown\n\n\nPredictive Intelligence (3 steps ahead):\n  1. "
              ++ q1 ++ u "\n  2." ++ rstrip (u " " ++ q2 ++ u "\n"))).
Proof.
  unfold success_body.
  rewrite (strict_format_two_questions py _
             [(u "recommendation", PStr (u "Use caching")); (u "confidence", PFloat 0.87)]
             [(u "you_will_probably_ask_next", PList [PStr q1; PStr q2])]
             (u "Use caching") q1 q2 0.87 42);
    [| vm_compute; reflexivity ..].
  destruct confidence_87 as [_ [-> ->]].
  rewrite <- (strip_two_questions _ q1 q2 67%N) by (vm_compute; reflexivity).
  decode_literals. reflexivity.
Qed.

(** C4: for a 200 body with recommendation "Use caching", confidence 0.87,
    agents_consulted 42 and the two predicted questions [q1], [q2], the
    string returned holds the recommendation as it is, the confidence as
    "87%" (lenient tool, no decimals) or "87.0%" (strict tool, one decimal),
    the count "42", and the questions after "1." and "2." in their order.
    The whole string is given; the strict tool strips it, which takes the
    final line feed and any white space that ends [q2]. *)
Theorem success_formatting (py : builtins) (w : world) (query : pystr)
    (run_manager : option CallbackManagerForToolRun) (q1 q2 : pystr) :
  (forall self : Lenient.CellRepairAITool,
     Lenient.api_key self <> [] ->
     network w (lenient_request self query)
     = Ok (mk_response 200 (Ok (success_body q1 q2))) ->
     fst (Lenient._run py self query run_manager w)
     = Ok (PStr (u "CellRepair.AI Network Response:\n\nUse caching\n\nConfidence: 87%\nAgents consulted: 42\n\nYou'll probably ask next:\n  1. "
                 ++ q1 ++ u "\n  2. " ++ q2 ++ u "\n")))
  /\ (forall (self : Strict.CellRepairTool) (context : pyval),
     network w (strict_request self query context)
     = Ok (mk_response 200 (Ok (success_body q1 q2))) ->
     fst (Strict._run py self query context run_manager w)
     = Ok (PStr (u "CellRepair.AI Analysis:\n\nUse caching\n\nConfidence: 87.0%\nAgents Consulted: 42\nImplementation Time: Unknown\nROI Estimate: Unknown\n\n\nPredictive Intelligence (3 steps ahead):\n  1. "
                 ++ q1 ++ u "\n  2." ++ rstrip (u " " ++ q2 ++ u "\n")))).
Proof.
  split.
  - intros self Hk Hnet.
    rewrite (lenient_run_200 py self query run_manager w _ Hk Hnet eq_refl).
    cbn [fst json obind]. now rewrite lenient_format_success_body.
  - intros self context Hnet.
    rewrite (strict_run_200 py self query context run_manager w _ Hnet eq_refl).
    cbn [fst json obind]. now rewrite strict_format_success_body.
Qed.

Lemma success_formatting_witness :
  fst (Lenient._run demo_builtins demo_lenient (u "hello") None
         (replying (success_body (u "How large is the cache?") (u "When to evict?"))))
  = Ok (PStr (u "CellRepair.AI Network Response:\n\nUse caching\n\nConfidence: 87%\nAgents consulted: 42\n\nYou'll probably ask next:\n  1. How large is the cache?\n  2. When to evict?\n"))
  /\ fst (Strict._run demo_builtins demo_strict (u "hello") PNone None
         (replying (success_body (u "How large is the cache?") (u "When to evict?"))))
  = Ok (PStr (u "CellRepair.AI Analysis:\n\nUse caching\n\nConfidence: 87.0%\nAgents Consulted: 42\nImplementation Time: Unknown\nROI Estimate: Unknown\n\n\nPredictive Intelligence (3 steps ahead):\n  1. How large is the cache?\n  2. When to evict?")).
Proof.
  pose proof (success_formatting demo_builtins
                (replying (success_body (u "How large is the cache?") (u "When to evict?")))
                (u "hello") None (u "How large is the cache?") (u "When to evict?"))
    as [HL HS].
  split.
  - rewrite (HL demo_lenient); [vm_compute; reflexivity | discriminate | reflexivity].
  - rewrite (HS demo_strict PNone); [vm_compute; reflexivity | reflexivity].
Defined.

(** * Further properties of the code *)

(** ** What a call leaves behind *)


(** ** Timeouts and statuses *)

(** X2: a timeout of any kind -- [Timeout], [ConnectTimeout], [ReadTimeout]
    -- is reported by the fixed sentence of the tool, which says "timed out";
    the message of the exception itself is dropped. *)
Theorem timeout_is_reported_as_such (py : builtins) (w : world) (query : pystr)
    (run_manager : option CallbackManagerForToolRun) (e : exn) :
  isinstance_Timeout (exn_cls e) = true ->
  (forall self : Lenient.CellRepairAITool,
     Lenient.api_key self <> [] ->
     network w (lenient_request self query) = Raised e ->
     fst (Lenient._run py self query run_manager w)
     = Ok (PStr (u "Error: Request timed out. Try again.")))
  /\ (forall (self : Strict.CellRepairTool) (context : pyval),
     network w (strict_request self query context) = Raised e ->
     fst (Strict._run py self query context run_manager w)
     = Ok (PStr (u "Error: Request timed out. Please try again.")))
  /\ contains (u "timed out") (u "Error: Request timed out. Try again.") = true
  /\ contains (u "timed out") (u "Error: Request timed out. Please try again.") = true.
Proof.
  intros Ht. repeat split.
  - intros self Hk Hnet.
    rewrite (lenient_run_raised py self query run_manager w e Hk Hnet).
    unfold handled. now rewrite Ht.
  - intros self context Hnet.
    rewrite (strict_run_raised py self query context run_manager w e Hnet).
    unfold handled. now rewrite Ht.
Qed.

Lemma timeout_is_reported_as_such_witness :
  fst (Lenient._run demo_builtins demo_lenient (u "hello") None
         (world_with [] (Raised (mk_exn ReadTimeout (u "read timed out after 30 s")))))
  = Ok (PStr (u "Error: Request timed out. Try again."))
  /\ fst (Strict._run demo_builtins demo_strict (u "hello") PNone None
         (world_with [] (Raised (mk_exn ConnectTimeout (u "no route to host")))))
  = Ok (PStr (u "Error: Request timed out. Please try again.")).
Proof.
  split.
  - apply (proj1 (timeout_is_reported_as_such demo_builtins
                    (world_with [] (Raised (mk_exn ReadTimeout (u "read timed out after 30 s"))))
                    (u "hello") None (mk_exn ReadTimeout (u "read timed out after 30 s"))
                    eq_refl) demo_lenient).
    + discriminate.
    + reflexivity.
  - apply (proj1 (proj2 (timeout_is_reported_as_such demo_builtins
                    (world_with [] (Raised (mk_exn ConnectTimeout (u "no route to host"))))
                    (u "hello") None (mk_exn ConnectTimeout (u "no route to host"))
                    eq_refl)) demo_strict PNone).
    reflexivity.
Defined.

(** X3: the status is looked at before the body.  For a response whose
    status is not 200 the body is never decoded: two responses with the same
    such status get the same result, whatever [response.json()] would do
    with either. *)
Theorem body_is_ignored_unless_200 (py : builtins) (w1 w2 : world) (query : pystr)
    (run_manager : option CallbackManagerForToolRun) (r1 r2 : response) :
  status_code r1 = status_code r2 -> status_code r1 <> 200%Z ->
  (forall self : Lenient.CellRepairAITool,
     Lenient.api_key self <> [] ->
     network w1 (lenient_request self query) = Ok r1 ->
     network w2 (lenient_request self query) = Ok r2 ->
     fst (Lenient._run py self query run_manager w1)
     = fst (Lenient._run py self query run_manager w2))
  /\ (forall (self : Strict.CellRepairTool) (context : pyval),
     network w1 (strict_request self query context) = Ok r1 ->
     network w2 (strict_request self query context) = Ok r2 ->
     fst (Strict._run py self query context run_manager w1)
     = fst (Strict._run py self query context run_manager w2)).
Proof.
  intros Hs H200. split.
  - intros self Hk H1 H2.
    destruct (Z.eq_dec (status_code r1) 401) as [H401 | H401].
    + rewrite (lenient_run_401 py self query run_manager w1 r1),
        (lenient_run_401 py self query run_manager w2 r2);
        first [assumption | reflexivity | congruence].
    + rewrite (lenient_run_status py self query run_manager w1 r1),
        (lenient_run_status py self query run_manager w2 r2);
        try first [assumption | congruence].
      cbn [fst]. now rewrite Hs.
  - intros self context H1 H2.
    destruct (Z.eq_dec (status_code r1) 401) as [H401 | H401].
    + rewrite (strict_run_401 py self query context run_manager w1 r1),
        (strict_run_401 py self query context run_manager w2 r2);
        first [assumption | reflexivity | congruence].
    + rewrite (strict_run_status py self query context run_manager w1 r1),
        (strict_run_status py self query context run_manager w2 r2);
        try first [assumption | congruence].
      cbn [fst]. now rewrite Hs.
Qed.

Lemma body_is_ignored_unless_200_witness :
  fst (Strict._run demo_builtins demo_strict (u "hello") PNone None
         (world_with [] (Ok (mk_response 503 (Ok (success_body (u "a") (u "b")))))))
  = fst (Strict._run demo_builtins demo_strict (u "hello") PNone None
         (world_with [] (Ok (mk_response 503 (Raised (mk_exn JSONDecodeError (u "Expecting value")))))))
  /\ fst (Lenient._run demo_builtins demo_lenient (u "hello") None
         (world_with [] (Ok (mk_response 503 (Ok (success_body (u "a") (u "b")))))))
  = fst (Lenient._run demo_builtins demo_lenient (u "hello") None
         (world_with [] (Ok (mk_response 503 (Raised (mk_exn JSONDecodeError (u "Expecting value"))))))).
Proof.
  pose proof (body_is_ignored_unless_200 demo_builtins
                (world_with [] (Ok (mk_response 503 (Ok (success_body (u "a") (u "b"))))))
                (world_with [] (Ok (mk_response 503 (Raised (mk_exn JSONDecodeError (u "Expecting value"))))))
                (u "hello") None
                (mk_response 503 (Ok (success_body (u "a") (u "b"))))
                (mk_response 503 (Raised (mk_exn JSONDecodeError (u "Expecting value"))))
                eq_refl ltac:(discriminate)) as [HL HS].
  split.
  - apply HS; reflexivity.
  - apply HL; [discriminate | reflexivity | reflexivity].
Defined.

(** ** Telling an answer from an error *)

Lemma startswith_heads_differ (p q s : pystr) (a b : N) :
  hd_error p = Some a -> hd_error q = Some b -> a <> b ->
  startswith p s = true -> startswith q s = false.
Proof.
  destruct p as [|a' p]; [discriminate |]. destruct q as [|b' q]; [discriminate |].
  intros [= ->] [= ->] Hab H. destruct s as [|x s]; [reflexivity |].
  cbn [startswith] in *. apply andb_true_iff in H as [Hx _].
  apply N.eqb_eq in Hx. subst x.
  apply N.eqb_neq in Hab. rewrite N.eqb_sym in Hab. now rewrite Hab.
Qed.

Lemma fold_left_app_startswith {A} (p : pystr) (f : A -> pystr) (l : list A)
    (acc : pystr) :
  startswith p acc = true ->
  startswith p (fold_left (fun r x => r ++ f x) l acc) = true.
Proof.
  revert acc. induction l as [|x l IH]; intros acc H; [exact H |].
  cbn [fold_left]. apply IH. now apply startswith_app_l.
Qed.

Lemma lstrip_shape (s : pystr) :
  lstrip s = [] \/ exists c t, lstrip s = c :: t /\ isspace c = false.
Proof.
  induction s as [|x s IH]; [now left |].
  cbn [lstrip]. destruct (isspace x) eqn:Hx; [exact IH |].
  right. now exists x, s.
Qed.

Lemma rstrip_idempotent (s : pystr) : rstrip (rstrip s) = rstrip s.
Proof.
  induction s as [|c s IH]; [reflexivity |].
  cbn [rstrip]. destruct (rstrip s) as [|y r] eqn:Hr.
  - destruct (isspace c) eqn:Hc; [reflexivity |]. cbn [rstrip]. now rewrite Hc.
  - cbn [rstrip] in *. now rewrite IH.
Qed.

Lemma rstrip_keeps_head (s t : pystr) (c : N) :
  isspace c = false -> rstrip (c :: s) = c :: t -> lstrip (c :: t) = c :: t.
Proof. intros Hc _. cbn [lstrip]. now rewrite Hc. Qed.

Lemma strip_idempotent (s : pystr) : strip (strip s) = strip s.
Proof.
  unfold strip. destruct (lstrip_shape s) as [-> | [c [t [-> Hc]]]]; [reflexivity |].
  assert (H : exists t', rstrip (c :: t) = c :: t').
  { cbn [rstrip]. destruct (rstrip t); [rewrite Hc |]; eexists; reflexivity. }
  destruct H as [t' Ht']. rewrite Ht'.
  rewrite (rstrip_keeps_head t t' c Hc Ht'). rewrite <- Ht'. apply rstrip_idempotent.
Qed.

Lemma strip_keeps_prefix (p t : pystr) (c h : N) :
  hd_error (p ++ [c]) = Some h -> isspace h = false -> isspace c = false ->
  strip ((p ++ [c]) ++ t) = (p ++ [c]) ++ rstrip t.
Proof.
  intros Hh Hsp Hc. unfold strip.
  rewrite (lstrip_keeps _ h); [| now destruct p | assumption].
  rewrite <- !app_assoc. cbn [app]. now rewrite rstrip_keeps.
Qed.

(** Goes from a string built by a loop of appends to the string it started
    from. *)
Ltac skip_fold :=
  repeat match goal with
         | |- startswith _ (fold_left _ _ _) = true => apply fold_left_app_startswith
         | |- startswith _ (fold_left _ _ _ ++ _) = true => apply startswith_app_l
         end.

Lemma lenient_format_header (py : builtins) (data v : pyval) :
  lenient_format py data = Ok v ->
  exists s, v = PStr s /\ startswith LENIENT_HEADER s = true.
Proof.
  unfold lenient_format. intros H. run_obind.
  all: subst; eexists; split; [reflexivity |].
  all: skip_fold; lazy; reflexivity.
Qed.

Lemma startswith_split (p s : pystr) :
  startswith p s = true -> exists t, s = p ++ t.
Proof.
  revert s. induction p as [|c p IH]; intros s H; [now exists s |].
  destruct s as [|x s]; [discriminate |]. cbn [startswith] in H.
  apply andb_true_iff in H as [Hx Hp]. apply N.eqb_eq in Hx. subst x.
  destruct (IH s Hp) as [t ->]. now exists t.
Qed.

Lemma strip_startswith (p p' s : pystr) (h c : N) :
  p = p' ++ [c] -> hd_error p = Some h -> isspace h = false -> isspace c = false ->
  startswith p s = true -> startswith p (strip s) = true.
Proof.
  intros -> Hh Hsp Hc H. destruct (startswith_split _ _ H) as [t ->].
  rewrite (strip_keeps_prefix p' t c h) by assumption. apply startswith_app.
Qed.

Lemma strict_format_header (py : builtins) (data v : pyval) :
  strict_format py data = Ok v ->
  exists s, v = PStr s /\ startswith STRICT_HEADER s = true /\ strip s = s.
Proof.
  unfold strict_format. intros H. run_obind.
  all: subst; eexists; split; [reflexivity |]; split; [| apply strip_idempotent].
  all: apply (strip_startswith _ (u "CellRepair.AI Analysis") _ 67%N 58%N);
    [vm_compute; reflexivity .. |].
  all: skip_fold; lazy; reflexivity.
Qed.

Lemma error_is_no_answer (h s : pystr) :
  hd_error h = Some 67%N -> startswith (u "Error: ") s = true ->
  startswith (u "Error: ") s = true /\ startswith h s = false.
Proof.
  intros Hh Hs. split; [exact Hs |].
  apply (startswith_heads_differ (u "Error: ") h s 69%N 67%N);
    [reflexivity | assumption | discriminate | assumption].
Qed.

Lemma answer_is_no_error (h s : pystr) :
  hd_error h = Some 67%N -> startswith h s = true ->
  startswith (u "Error: ") s = false.
Proof.
  intros Hh Hs.
  apply (startswith_heads_differ h (u "Error: ") s 67%N 69%N);
    [assumption | reflexivity | discriminate | assumption].
Qed.

Lemma handled_starts_with_error (t : pystr) (e : exn) :
  startswith (u "Error: ") t = true ->
  exists s, handled t e = PStr s /\ startswith (u "Error: ") s = true.
Proof.
  intros Ht. unfold handled. eexists. split; [reflexivity |].
  destruct (isinstance_Timeout (exn_cls e)); [exact Ht | apply startswith_app].
Qed.

(** X4: the caller can tell an answer from an error by its first word.
    Every string [_run] returns begins either with "Error: " or with the
    heading of the tool ("CellRepair.AI Network Response:" /
    "CellRepair.AI Analysis:"), never with both, and it begins with the
    heading only when the service answered with status 200.  An answer of
    the strict tool has no white space at either end. *)
Theorem result_tells_answer_from_error (py : builtins) (w : world) (query : pystr)
    (run_manager : option CallbackManagerForToolRun) :
  (forall self : Lenient.CellRepairAITool,
     exists s, fst (Lenient._run py self query run_manager w) = Ok (PStr s)
       /\ ((startswith (u "Error: ") s = true /\ startswith LENIENT_HEADER s = false)
           \/ (startswith LENIENT_HEADER s = true /\ startswith (u "Error: ") s = false
               /\ exists r, network w (lenient_request self query) = Ok r
                            /\ status_code r = 200%Z)))
  /\ (forall (self : Strict.CellRepairTool) (context : pyval),
     exists s, fst (Strict._run py self query context run_manager w) = Ok (PStr s)
       /\ ((startswith (u "Error: ") s = true /\ startswith STRICT_HEADER s = false)
           \/ (startswith STRICT_HEADER s = true /\ startswith (u "Error: ") s = false
               /\ strip s = s
               /\ exists r, network w (strict_request self query context) = Ok r
                            /\ status_code r = 200%Z))).
Proof.
  split.
  - intros self. destruct (Lenient.api_key self) as [|c k] eqn:Hkey.
    { rewrite lenient_run_nokey by assumption. eexists. split; [reflexivity |].
      left. apply error_is_no_answer; vm_compute; reflexivity. }
    assert (Hk : Lenient.api_key self <> []) by (rewrite Hkey; discriminate).
    destruct (network w (lenient_request self query)) as [r | e] eqn:Hnet.
    + destruct (Z.eq_dec (status_code r) 401) as [H401 | H401].
      { rewrite (lenient_run_401 py self query run_manager w r) by assumption.
        eexists. split; [reflexivity |].
        left. apply error_is_no_answer; vm_compute; reflexivity. }
      destruct (Z.eq_dec (status_code r) 200) as [H200 | H200].
      * rewrite (lenient_run_200 py self query run_manager w r) by assumption.
        cbn [fst].
        destruct (obind (json r) (lenient_format py)) as [v | e] eqn:Hf.
        -- destruct (json r) as [data | e]; [| discriminate Hf]. cbn [obind] in Hf.
           destruct (lenient_format_header py data v Hf) as [s [-> Hs]].
           exists s. split; [reflexivity |]. right. split; [exact Hs |]. split.
           ++ now apply (answer_is_no_error LENIENT_HEADER).
           ++ now exists r.
        -- destruct (handled_starts_with_error
                       (u "Error: Request timed out. Try again.") e eq_refl)
             as [s [-> Hs]].
           exists s. split; [reflexivity |].
           left. now apply error_is_no_answer.
      * rewrite (lenient_run_status py self query run_manager w r) by assumption.
        eexists. split; [reflexivity |]. left. apply error_is_no_answer.
        -- reflexivity.
        -- apply startswith_app_l. vm_compute. reflexivity.
    + rewrite (lenient_run_raised py self query run_manager w e) by assumption.
      destruct (handled_starts_with_error
                  (u "Error: Request timed out. Try again.") e eq_refl)
        as [s [-> Hs]].
      exists s. split; [reflexivity |]. left. now apply error_is_no_answer.
  - intros self context.
    destruct (network w (strict_request self query context)) as [r | e] eqn:Hnet.
    + destruct (Z.eq_dec (status_code r) 401) as [H401 | H401].
      { rewrite (strict_run_401 py self query context run_manager w r) by assumption.
        eexists. split; [reflexivity |].
        left. apply error_is_no_answer; vm_compute; reflexivity. }
      destruct (Z.eq_dec (status_code r) 200) as [H200 | H200].
      * rewrite (strict_run_200 py self query context run_manager w r) by assumption.
        cbn [fst].
        destruct (obind (json r) (strict_format py)) as [v | e] eqn:Hf.
        -- destruct (json r) as [data | e]; [| discriminate Hf]. cbn [obind] in Hf.
           destruct (strict_format_header py data v Hf) as [s [-> [Hs Hstrip]]].
           exists s. split; [reflexivity |]. right. split; [exact Hs |]. split.
           ++ now apply (answer_is_no_error STRICT_HEADER).
           ++ split; [exact Hstrip | now exists r].
        -- destruct (handled_starts_with_error
                       (u "Error: Request timed out. Please try again.") e eq_refl)
             as [s [-> Hs]].
           exists s. split; [reflexivity |].
           left. now apply error_is_no_answer.
      * rewrite (strict_run_status py self query context run_manager w r) by assumption.
        eexists. split; [reflexivity |]. left. apply error_is_no_answer.
        -- reflexivity.
        -- apply startswith_app_l. vm_compute. reflexivity.
    + rewrite (strict_run_raised py self query context run_manager w e) by assumption.
      destruct (handled_starts_with_error
                  (u "Error: Request timed out. Please try again.") e eq_refl)
        as [s [-> Hs]].
      exists s. split; [reflexivity |]. left. now apply error_is_no_answer.
Qed.

(** ** Bodies that lack a field, or hold null *)

Lemma lenient_run_format_error py self query rm w data e :
  Lenient.api_key self <> [] ->
  network w (lenient_request self query) = Ok (mk_response 200 (Ok data)) ->
  lenient_format py data = Raised e -> isinstance_Timeout (exn_cls e) = false ->
  fst (Lenient._run py self query rm w) = Ok (PStr (u "Error: " ++ exn_str e)).
Proof.
  intros Hk Hnet Hf Ht.
  rewrite (lenient_run_200 py self query rm w _ Hk Hnet eq_refl).
  cbn [fst json obind]. rewrite Hf. unfold handled. now rewrite Ht.
Qed.

Lemma strict_run_format_error py self query ctx rm w data e :
  network w (strict_request self query ctx) = Ok (mk_response 200 (Ok data)) ->
  strict_format py data = Raised e -> isinstance_Timeout (exn_cls e) = false ->
  fst (Strict._run py self query ctx rm w) = Ok (PStr (u "Error: " ++ exn_str e)).
Proof.
  intros Hnet Hf Ht.
  rewrite (strict_run_200 py self query ctx rm w _ Hnet eq_refl).
  cbn [fst json obind]. rewrite Hf. unfold handled. now rewrite Ht.
Qed.

Lemma lenient_run_format_ok py self query rm w data s :
  Lenient.api_key self <> [] ->
  network w (lenient_request self query) = Ok (mk_response 200 (Ok data)) ->
  lenient_format py data = Ok (PStr s) ->
  fst (Lenient._run py self query rm w) = Ok (PStr s).
Proof.
  intros Hk Hnet Hf.
  rewrite (lenient_run_200 py self query rm w _ Hk Hnet eq_refl).
  cbn [fst json obind]. now rewrite Hf.
Qed.

Lemma strict_run_format_ok py self query ctx rm w data s :
  network w (strict_request self query ctx) = Ok (mk_response 200 (Ok data)) ->
  strict_format py data = Ok (PStr s) ->
  fst (Strict._run py self query ctx rm w) = Ok (PStr s).
Proof.
  intros Hnet Hf.
  rewrite (strict_run_200 py self query ctx rm w _ Hnet eq_refl).
  cbn [fst json obind]. now rewrite Hf.
Qed.

Lemma key_error_message (py : builtins) :
  u "Error: " ++ str_repr py (u "insight") = u "Error: 'insight'"
  /\ u "Error: " ++ str_repr py (u "recommendation") = u "Error: 'recommendation'"
  /\ u "Error: " ++ str_repr py (u "confidence") = u "Error: 'confidence'"
  /\ u "Error: " ++ str_repr py (u "agents_consulted") = u "Error: 'agents_consulted'".
Proof. repeat split; vm_compute; reflexivity. Qed.

(** X5: the lenient tool requires four keys.  On a 200 response whose body
    is a JSON object, the first of [insight], [insight.recommendation],
    [insight.confidence] and [agents_consulted] that is absent is named in
    the result, "Error: '<key>'", and nothing is formatted. *)
Theorem lenient_names_the_missing_key (py : builtins) (w : world) (query : pystr)
    (run_manager : option CallbackManagerForToolRun)
    (self : Lenient.CellRepairAITool) (d : list (pystr * pyval)) :
  Lenient.api_key self <> [] ->
  network w (lenient_request self query) = Ok (mk_response 200 (Ok (PDict d))) ->
  (lookup (u "insight") d = None ->
   fst (Lenient._run py self query run_manager w) = Ok (PStr (u "Error: 'insight'")))
  /\ (forall ins,
      lookup (u "insight") d = Some (PDict ins) ->
      lookup (u "recommendation") ins = None ->
      fst (Lenient._run py self query run_manager w)
      = Ok (PStr (u "Error: 'recommendation'")))
  /\ (forall ins rec,
      lookup (u "insight") d = Some (PDict ins) ->
      lookup (u "recommendation") ins = Some rec ->
      lookup (u "confidence") ins = None ->
      fst (Lenient._run py self query run_manager w)
      = Ok (PStr (u "Error: 'confidence'")))
  /\ (forall ins rec c,
      lookup (u "insight") d = Some (PDict ins) ->
      lookup (u "recommendation") ins = Some rec ->
      lookup (u "confidence") ins = Some (PFloat c) ->
      lookup (u "agents_consulted") d = None ->
      fst (Lenient._run py self query run_manager w)
      = Ok (PStr (u "Error: 'agents_consulted'"))).
Proof.
  intros Hk Hnet. destruct (key_error_message py) as [Mi [Mr [Mc Ma]]].
  repeat split.
  - intros Hi. rewrite <- Mi.
    apply (lenient_run_format_error py self query run_manager w (PDict d)
             (mk_exn KeyError (str_repr py (u "insight"))) Hk Hnet); [| reflexivity].
    unfold lenient_format, getitem. now rewrite Hi.
  - intros ins Hi Hr. rewrite <- Mr.
    apply (lenient_run_format_error py self query run_manager w (PDict d)
             (mk_exn KeyError (str_repr py (u "recommendation"))) Hk Hnet);
      [| reflexivity].
    unfold lenient_format, getitem. rewrite Hi. cbn [obind]. now rewrite Hr.
  - intros ins rec Hi Hr Hc. rewrite <- Mc.
    apply (lenient_run_format_error py self query run_manager w (PDict d)
             (mk_exn KeyError (str_repr py (u "confidence"))) Hk Hnet);
      [| reflexivity].
    unfold lenient_format, getitem. rewrite Hi. cbn [obind]. now rewrite Hr, Hc.
  - intros ins rec c Hi Hr Hc Ha. rewrite <- Ma.
    apply (lenient_run_format_error py self query run_manager w (PDict d)
             (mk_exn KeyError (str_repr py (u "agents_consulted"))) Hk Hnet);
      [| reflexivity].
    unfold lenient_format, getitem. rewrite Hi. cbn [obind]. rewrite Hr, Hc, Ha.
    reflexivity.
Qed.

Lemma lenient_names_the_missing_key_witness :
  fst (Lenient._run demo_builtins demo_lenient (u "hello") None (replying (PDict [])))
  = Ok (PStr (u "Error: 'insight'"))
  /\ fst (Lenient._run demo_builtins demo_lenient (u "hello") None
            (replying body_without_agents))
  = Ok (PStr (u "Error: 'agents_consulted'")).
Proof.
  split.
  - apply (proj1 (lenient_names_the_missing_key demo_builtins (replying (PDict []))
                    (u "hello") None demo_lenient []
                    ltac:(discriminate) eq_refl)).
    reflexivity.
  - apply (proj2 (proj2 (proj2
             (lenient_names_the_missing_key demo_builtins (replying body_without_agents)
                (u "hello") None demo_lenient _ ltac:(discriminate) eq_refl)))
             [(u "recommendation", PStr (u "Use caching")); (u "confidence", PFloat 0.87)]
             (PStr (u "Use caching")) 0.87%float);
      vm_compute; reflexivity.
Defined.

Lemma py_get_dict (d : list (pystr * pyval)) (k : pystr) (default : pyval) :
  py_get (PDict d) k default = Ok (or_default (lookup k d) default).
Proof. unfold py_get, or_default. now destruct (lookup k d). Qed.

Lemma zero_percent : py_format_f 1 (PInt (0 * 100)) = Ok (u "0.0").
Proof. vm_compute. reflexivity. Qed.

(** X6: in the strict tool every field of a 200 body is optional.  When
    [insight] is absent or an object, [confidence] is absent or a float, and
    there is no [predictive_intelligence], the call returns the formatted
    text, in which every absent field is replaced by its placeholder:
    "No recommendation available", 0.0%, 0, "Unknown" and "Unknown". *)
Theorem strict_fills_absent_fields (py : builtins) (w : world) (query : pystr)
    (run_manager : option CallbackManagerForToolRun)
    (self : Strict.CellRepairTool) (context : pyval)
    (d ins : list (pystr * pyval)) (conf : option float) :
  network w (strict_request self query context) = Ok (mk_response 200 (Ok (PDict d))) ->
  lookup (u "insight") d = Some (PDict ins)
  \/ (lookup (u "insight") d = None /\ ins = []) ->
  lookup (u "confidence") ins = option_map PFloat conf ->
  lookup (u "predictive_intelligence") d = None ->
  fst (Strict._run py self query context run_manager w)
  = Ok (PStr (strip
          (u "CellRepair.AI Analysis:\n\n"
           ++ py_str py (or_default (lookup (u "recommendation") ins)
                           (PStr (u "No recommendation available")))
           ++ u "\n\nConfidence: "
           ++ match conf with
              | Some c => format_f 1 (Prim2SF (c * 100)%float)
              | None => u "0.0"
              end
           ++ u "%\nAgents Consulted: "
           ++ py_str py (or_default (lookup (u "agents_consulted") d) (PInt 0))
           ++ u "\nImplementation Time: "
           ++ py_str py (or_default (lookup (u "implementation_time") ins)
                           (PStr (u "Unknown")))
           ++ u "\nROI Estimate: "
           ++ py_str py (or_default (lookup (u "roi_estimate") ins) (PStr (u "Unknown")))
           ++ u "\n"))).
Proof.
  intros Hnet Hi Hc Hp.
  apply (strict_run_format_ok py self query context run_manager w (PDict d) _ Hnet).
  unfold strict_format. rewrite py_get_dict.
  assert (Hins : or_default (lookup (u "insight") d) (PDict []) = PDict ins).
  { destruct Hi as [-> | [-> ->]]; reflexivity. }
  rewrite Hins. cbn [obind]. rewrite !py_get_dict. cbn [obind].
  rewrite Hp, Hc. cbn [or_default]. rewrite py_get_dict. cbn [obind lookup or_default].
  destruct conf as [c |]; cbn [option_map or_default].
  - change (py_mul (PFloat c) 100) with (Ok (PFloat (c * 100)%float)).
    cbn [obind py_format_f truthy]. reflexivity.
  - cbn [py_mul obind]. rewrite zero_percent. cbn [obind truthy]. reflexivity.
Qed.

Lemma strict_fills_absent_fields_witness :
  fst (Strict._run demo_builtins demo_strict (u "hello") PNone None (replying (PDict [])))
  = Ok (PStr (u "CellRepair.AI Analysis:\n\nNo recommendation available\n\nConfidence: 0.0%\nAgents Consulted: 0\nImplementation Time: Unknown\nROI Estimate: Unknown"))
  /\ fst (Strict._run demo_builtins demo_strict (u "hello") PNone None
            (replying body_without_agents))
  = Ok (PStr (u "CellRepair.AI Analysis:\n\nUse caching\n\nConfidence: 87.0%\nAgents Consulted: 0\nImplementation Time: Unknown\nROI Estimate: Unknown")).
Proof.
  split.
  - rewrite (strict_fills_absent_fields demo_builtins (replying (PDict [])) (u "hello")
               None demo_strict PNone [] [] None eq_refl
               (or_intror (conj eq_refl eq_refl)) eq_refl eq_refl).
    vm_compute. reflexivity.
  - rewrite (strict_fills_absent_fields demo_builtins (replying body_without_agents)
               (u "hello") None demo_strict PNone _
               [(u "recommendation", PStr (u "Use caching")); (u "confidence", PFloat 0.87)]
               (Some 0.87%float) eq_refl);
      vm_compute; try reflexivity.
    left. reflexivity.
Defined.

Lemma null_messages :
  u "Error: " ++ (u "'" ++ type_name PNone ++ u "' object has no attribute 'get'")
  = u "Error: 'NoneType' object has no attribute 'get'"
  /\ u "Error: " ++ (u "unsupported operand type(s) for *: '" ++ type_name PNone
                     ++ u "' and 'int'")
     = u "Error: unsupported operand type(s) for *: 'NoneType' and 'int'".
Proof. split; vm_compute; reflexivity. Qed.

(** X7: a placeholder stands for an absent key, not for a null.  In the
    strict tool a 200 body in which [insight] or [predictive_intelligence] is
    present with the value null gives "Error: 'NoneType' object has no
    attribute 'get'", and one in which [confidence] is null gives the
    TypeError of [None * 100]; no text is formatted. *)
Theorem strict_null_is_not_absent (py : builtins) (w : world) (query : pystr)
    (run_manager : option CallbackManagerForToolRun)
    (self : Strict.CellRepairTool) (context : pyval) (d : list (pystr * pyval)) :
  network w (strict_request self query context) = Ok (mk_response 200 (Ok (PDict d))) ->
  (lookup (u "insight") d = Some PNone ->
   fst (Strict._run py self query context run_manager w)
   = Ok (PStr (u "Error: 'NoneType' object has no attribute 'get'")))
  /\ (forall ins,
      lookup (u "insight") d = Some (PDict ins) ->
      lookup (u "predictive_intelligence") d = Some PNone ->
      fst (Strict._run py self query context run_manager w)
      = Ok (PStr (u "Error: 'NoneType' object has no attribute 'get'")))
  /\ (forall ins,
      lookup (u "insight") d = Some (PDict ins) ->
      lookup (u "confidence") ins = Some PNone ->
      lookup (u "predictive_intelligence") d = None ->
      fst (Strict._run py self query context run_manager w)
      = Ok (PStr (u "Error: unsupported operand type(s) for *: 'NoneType' and 'int'"))).
Proof.
  intros Hnet. repeat split.
  - intros Hi.
    rewrite <- (proj1 null_messages).
    apply (strict_run_format_error py self query context run_manager w (PDict d)
             (mk_exn AttributeError
                (u "'" ++ type_name PNone ++ u "' object has no attribute 'get'")) Hnet); [| reflexivity].
    unfold strict_format. rewrite py_get_dict, Hi. reflexivity.
  - intros ins Hi Hp.
    rewrite <- (proj1 null_messages).
    apply (strict_run_format_error py self query context run_manager w (PDict d)
             (mk_exn AttributeError
                (u "'" ++ type_name PNone ++ u "' object has no attribute 'get'")) Hnet); [| reflexivity].
    unfold strict_format. rewrite py_get_dict, Hi. cbn [or_default obind].
    rewrite !py_get_dict. cbn [obind]. rewrite Hp. reflexivity.
  - intros ins Hi Hc Hp.
    rewrite <- (proj2 null_messages).
    apply (strict_run_format_error py self query context run_manager w (PDict d)
             (mk_exn TypeError
                (u "unsupported operand type(s) for *: '" ++ type_name PNone
                 ++ u "' and 'int'")) Hnet); [| reflexivity].
    unfold strict_format. rewrite py_get_dict, Hi. cbn [or_default obind].
    rewrite !py_get_dict. cbn [obind]. rewrite Hp, Hc. cbn [or_default].
    rewrite py_get_dict. reflexivity.
Qed.

Lemma strict_null_is_not_absent_witness :
  fst (Strict._run demo_builtins demo_strict (u "hello") PNone None
         (replying (PDict [(u "insight", PNone)])))
  = Ok (PStr (u "Error: 'NoneType' object has no attribute 'get'"))
  /\ fst (Strict._run demo_builtins demo_strict (u "hello") PNone None
         (replying (PDict [(u "insight", PDict [(u "confidence", PNone)])])))
  = Ok (PStr (u "Error: unsupported operand type(s) for *: 'NoneType' and 'int'")).
Proof.
  split.
  - apply (proj1 (strict_null_is_not_absent demo_builtins
                    (replying (PDict [(u "insight", PNone)])) (u "hello") None
                    demo_strict PNone _ eq_refl)).
    reflexivity.
  - apply (proj2 (proj2 (strict_null_is_not_absent demo_builtins
                    (replying (PDict [(u "insight", PDict [(u "confidence", PNone)])]))
                    (u "hello") None demo_strict PNone _ eq_refl))
             [(u "confidence", PNone)]); reflexivity.
Defined.

(** ** The layout of an answer *)

Lemma numbering_loop (py : builtins) (qs : list pystr) (i : Z) (acc : pystr) :
  fold_left
    (fun result iq =>
       result ++ u "  " ++ str_of_int (fst iq) ++ u ". "
       ++ py_str py (snd iq) ++ u "\n")
    (enumerate (map PStr qs) i) acc
  = acc ++ numbered_from i qs.
Proof.
  revert i acc. induction qs as [|q qs IH]; intros i acc.
  - cbn [map enumerate fold_left numbered_from]. now rewrite app_nil_r.
  - cbn [map enumerate fold_left numbered_from fst snd py_str]. rewrite IH.
    rewrite <- !app_assoc. reflexivity.
Qed.

Lemma lenient_questions_step (py : builtins) (d : list (pystr * pyval))
    (qs : list pystr) (result : pystr) :
  asks d qs ->
  (if match lookup (u "predictive_intelligence") d with
      | Some _ => true
      | None => false
      end
   then
     obind (getitem py (PDict d) (u "predictive_intelligence"))
       (fun predictive =>
          obind (py_get predictive (u "you_will_probably_ask_next") (PList []))
            (fun next_q =>
               if truthy next_q then
                 obind (py_iter next_q)
                   (fun items =>
                      Ok (fold_left
                            (fun result iq =>
                               result ++ u "  " ++ str_of_int (fst iq) ++ u ". "
                               ++ py_str py (snd iq) ++ u "\n")
                            (enumerate items 1)
                            (result ++ u "\nYou'll probably ask next:\n")))
               else Ok result))
   else Ok result)
  = Ok (result ++ lenient_questions qs).
Proof.
  intros [[Hp ->] | [pi [Hp Hq]]]; unfold getitem; rewrite Hp; cbn [obind].
  - cbn [lenient_questions]. now rewrite app_nil_r.
  - rewrite py_get_dict. destruct Hq as [Hq | [Hq ->]]; rewrite Hq; cbn [or_default obind].
    + destruct qs as [|q qs].
      * cbn [map truthy lenient_questions]. now rewrite app_nil_r.
      * cbn [map truthy py_iter obind]. rewrite (numbering_loop py (q :: qs)).
        unfold lenient_questions. now rewrite <- app_assoc.
    + cbn [truthy lenient_questions]. now rewrite app_nil_r.
Qed.

Lemma lenient_learning_step (py : builtins) (d : list (pystr * pyval))
    (lv : option pyval) (result : pystr) :
  lookup (u "learning_exchange") d = lv ->
  lv = None \/ (exists le, lv = Some (PDict le)) ->
  (if match lookup (u "learning_exchange") d with
      | Some _ => true
      | None => false
      end
   then
     obind (getitem py (PDict d) (u "learning_exchange"))
       (fun learn =>
          obind (py_get learn (u "both_systems_improved") PNone)
            (fun improved =>
               if truthy improved then
                 Ok (result ++ u "\n✨ Both LangChain and CellRepair.AI got smarter from this!\n")
               else Ok result))
   else Ok result)
  = Ok (result
        ++ match lv with
           | Some (PDict le) =>
             if truthy (or_default (lookup (u "both_systems_improved") le) PNone)
             then LEARNING_NOTE else []
           | _ => []
           end).
Proof.
  intros Hl [-> | [le ->]]; unfold getitem; rewrite Hl; cbn [obind].
  - now rewrite app_nil_r.
  - rewrite py_get_dict. cbn [obind].
    destruct (truthy (or_default (lookup (u "both_systems_improved") le) PNone));
      [reflexivity | now rewrite app_nil_r].
Qed.

Lemma lenient_format_layout (py : builtins) (d ins : list (pystr * pyval))
    (rec : pystr) (c : float) (n : Z) (qs : list pystr) (lv : option pyval) :
  well_formed d ins rec c n -> asks d qs ->
  lookup (u "learning_exchange") d = lv ->
  lv = None \/ (exists le, lv = Some (PDict le)) ->
  lenient_format py (PDict d)
  = Ok (PStr (lenient_base rec c n ++ lenient_questions qs
              ++ match lv with
                 | Some (PDict le) =>
                   if truthy (or_default (lookup (u "both_systems_improved") le) PNone)
                   then LEARNING_NOTE else []
                 | _ => []
                 end)).
Proof.
  intros [Hi [Hr [Hc Ha]]] Hq Hl Hlv. unfold lenient_format. cbv zeta.
  unfold getitem at 1 2 3 4 5. rewrite Hi. cbn [obind]. rewrite Hr, Hc, Ha. cbn [obind].
  change (py_mul (PFloat c) 100) with (Ok (PFloat (c * 100)%float)).
  cbn [obind py_format_f py_str py_repr]. unfold py_in. cbn [obind].
  rewrite (lenient_questions_step py d qs _ Hq). cbn [obind].
  rewrite (lenient_learning_step py d lv _ Hl Hlv). cbn [obind].
  unfold lenient_base. rewrite <- !app_assoc. reflexivity.
Qed.

(** X8: the lenient tool numbers the predicted questions.  For a
    well-formed 200 body without [learning_exchange], the answer is the base
    text followed -- when there is at least one question -- by the heading
    "You'll probably ask next:" and the questions one per line, numbered
    1, 2, 3, ... in the order of the list; an empty list, like an absent
    one, adds nothing, not even the heading. *)
Theorem lenient_numbers_the_questions (py : builtins) (w : world) (query : pystr)
    (run_manager : option CallbackManagerForToolRun)
    (self : Lenient.CellRepairAITool) (d ins : list (pystr * pyval))
    (rec : pystr) (c : float) (n : Z) (qs : list pystr) :
  Lenient.api_key self <> [] ->
  network w (lenient_request self query) = Ok (mk_response 200 (Ok (PDict d))) ->
  well_formed d ins rec c n -> asks d qs ->
  lookup (u "learning_exchange") d = None ->
  fst (Lenient._run py self query run_manager w)
  = Ok (PStr (lenient_base rec c n ++ lenient_questions qs)).
Proof.
  intros Hk Hnet Hwf Hq Hl.
  apply (lenient_run_format_ok py self query run_manager w (PDict d) _ Hk Hnet).
  rewrite (lenient_format_layout py d ins rec c n qs None Hwf Hq Hl (or_introl eq_refl)).
  now rewrite app_nil_r.
Qed.

Lemma lenient_numbers_the_questions_witness :
  fst (Lenient._run demo_builtins demo_lenient (u "hello") None
         (replying (PDict (items_asking [u "How?"; u "Why?"; u "When?"]))))
  = Ok (PStr (u "CellRepair.AI Network Response:\n\nUse caching\n\nConfidence: 87%\nAgents consulted: 42\n\nYou'll probably ask next:\n  1. How?\n  2. Why?\n  3. When?\n"))
  /\ fst (Lenient._run demo_builtins demo_lenient (u "hello") None
         (replying (PDict (items_asking []))))
  = Ok (PStr (u "CellRepair.AI Network Response:\n\nUse caching\n\nConfidence: 87%\nAgents consulted: 42\n")).
Proof.
  split.
  - rewrite (lenient_numbers_the_questions demo_builtins
               (replying (PDict (items_asking [u "How?"; u "Why?"; u "When?"])))
               (u "hello") None demo_lenient
               (items_asking [u "How?"; u "Why?"; u "When?"]) demo_insight
               (u "Use caching") 0.87 42 [u "How?"; u "Why?"; u "When?"]
               ltac:(discriminate) eq_refl).
    + vm_compute. reflexivity.
    + repeat split; vm_compute; reflexivity.
    + right. eexists. split; [vm_compute; reflexivity |]. left. reflexivity.
    + vm_compute. reflexivity.
  - rewrite (lenient_numbers_the_questions demo_builtins
               (replying (PDict (items_asking []))) (u "hello") None demo_lenient
               (items_asking []) demo_insight (u "Use caching") 0.87 42 []
               ltac:(discriminate) eq_refl).
    + vm_compute. reflexivity.
    + repeat split; vm_compute; reflexivity.
    + right. eexists. split; [vm_compute; reflexivity |]. left. reflexivity.
    + vm_compute. reflexivity.
Defined.

(** X9: the note on mutual improvement.  For a well-formed 200 body whose
    [learning_exchange] is an object, the lenient tool ends the answer --
    after the questions, if any -- with the line "Both LangChain and
    CellRepair.AI got smarter from this!" exactly when
    [both_systems_improved] is present and truthy; when it is absent, false,
    null, 0 or empty, nothing is added. *)
Theorem lenient_learning_note (py : builtins) (w : world) (query : pystr)
    (run_manager : option CallbackManagerForToolRun)
    (self : Lenient.CellRepairAITool) (d ins le : list (pystr * pyval))
    (rec : pystr) (c : float) (n : Z) (qs : list pystr) :
  Lenient.api_key self <> [] ->
  network w (lenient_request self query) = Ok (mk_response 200 (Ok (PDict d))) ->
  well_formed d ins rec c n -> asks d qs ->
  lookup (u "learning_exchange") d = Some (PDict le) ->
  fst (Lenient._run py self query run_manager w)
  = Ok (PStr (lenient_base rec c n ++ lenient_questions qs
              ++ if truthy (or_default (lookup (u "both_systems_improved") le) PNone)
                 then LEARNING_NOTE else [])).
Proof.
  intros Hk Hnet Hwf Hq Hl.
  apply (lenient_run_format_ok py self query run_manager w (PDict d) _ Hk Hnet).
  now rewrite (lenient_format_layout py d ins rec c n qs (Some (PDict le)) Hwf Hq Hl
                 (or_intror (ex_intro _ le eq_refl))).
Qed.

Lemma lenient_learning_note_witness :
  fst (Lenient._run demo_builtins demo_lenient (u "hello") None
         (replying (PDict (items_learning (PBool true)))))
  = Ok (PStr (u "CellRepair.AI Network Response:\n\nUse caching\n\nConfidence: 87%\nAgents consulted: 42\n\n✨ Both LangChain and CellRepair.AI got smarter from this!\n"))
  /\ fst (Lenient._run demo_builtins demo_lenient (u "hello") None
         (replying (PDict (items_learning (PBool false)))))
  = Ok (PStr (u "CellRepair.AI Network Response:\n\nUse caching\n\nConfidence: 87%\nAgents consulted: 42\n")).
Proof.
  split.
  - rewrite (lenient_learning_note demo_builtins
               (replying (PDict (items_learning (PBool true)))) (u "hello") None
               demo_lenient (items_learning (PBool true)) demo_insight
               [(u "both_systems_improved", PBool true)]
               (u "Use caching") 0.87 42 [] ltac:(discriminate) eq_refl).
    + vm_compute. reflexivity.
    + repeat split; vm_compute; reflexivity.
    + left. split; vm_compute; reflexivity.
    + vm_compute. reflexivity.
  - rewrite (lenient_learning_note demo_builtins
               (replying (PDict (items_learning (PBool false)))) (u "hello") None
               demo_lenient (items_learning (PBool false)) demo_insight
               [(u "both_systems_improved", PBool false)]
               (u "Use caching") 0.87 42 [] ltac:(discriminate) eq_refl).
    + vm_compute. reflexivity.
    + repeat split; vm_compute; reflexivity.
    + left. split; vm_compute; reflexivity.
    + vm_compute. reflexivity.
Defined.

Lemma asked_questions (d : list (pystr * pyval)) (qs : list pystr) :
  asks d qs ->
  obind (py_get (PDict d) (u "predictive_intelligence") (PDict []))
    (fun predictive => py_get predictive (u "you_will_probably_ask_next") (PList []))
  = Ok (PList (map PStr qs)).
Proof.
  intros [[Hp ->] | [pi [Hp Hq]]]; rewrite py_get_dict, Hp; cbn [or_default obind];
    rewrite py_get_dict.
  - reflexivity.
  - destruct Hq as [-> | [-> ->]]; reflexivity.
Qed.

Lemma strict_format_layout (py : builtins) (d ins : list (pystr * pyval))
    (rec : pystr) (c : float) (n : Z) (qs : list pystr) :
  well_formed d ins rec c n -> asks d qs ->
  strict_format py (PDict d)
  = Ok (PStr (strip
          (strict_base py rec c n
             (or_default (lookup (u "implementation_time") ins) (PStr (u "Unknown")))
             (or_default (lookup (u "roi_estimate") ins) (PStr (u "Unknown")))
           ++ strict_questions qs))).
Proof.
  intros [Hi [Hr [Hc Ha]]] Hq. unfold strict_format. cbv zeta.
  rewrite py_get_dict, Hi. cbn [or_default obind].
  rewrite (py_get_dict ins), Hr. cbn [or_default obind].
  rewrite (py_get_dict ins), Hc. cbn [or_default obind].
  rewrite (py_get_dict d (u "agents_consulted")), Ha. cbn [or_default obind].
  pose proof (asked_questions d qs Hq) as Hnext.
  destruct (py_get (PDict d) (u "predictive_intelligence") (PDict [])) as [pv | e];
    [| discriminate Hnext].
  cbn [obind] in *. rewrite Hnext. cbn [obind].
  change (py_mul (PFloat c) 100) with (Ok (PFloat (c * 100)%float)).
  cbn [obind py_format_f]. rewrite !py_get_dict. cbn [obind py_str py_repr].
  destruct qs as [|q qs].
  - cbn [map truthy strict_questions obind]. unfold strict_base.
    rewrite <- !app_assoc. reflexivity.
  - cbn [map truthy py_iter obind]. rewrite (numbering_loop py (q :: qs)).
    unfold strict_base, strict_questions. rewrite <- !app_assoc. reflexivity.
Qed.

(** X10: the strict tool numbers the predicted questions.  For a
    well-formed 200 body the answer is the base text -- with "Unknown" for an
    absent [implementation_time] or [roi_estimate] -- followed, when there is
    at least one question, by the heading "Predictive Intelligence (3 steps
    ahead):" and the questions one per line, numbered 1, 2, 3, ... in the
    order of the list, the whole stripped of the white space at its ends; an
    empty list, like an absent one, adds no heading. *)
Theorem strict_numbers_the_questions (py : builtins) (w : world) (query : pystr)
    (run_manager : option CallbackManagerForToolRun)
    (self : Strict.CellRepairTool) (context : pyval) (d ins : list (pystr * pyval))
    (rec : pystr) (c : float) (n : Z) (qs : list pystr) :
  network w (strict_request self query context) = Ok (mk_response 200 (Ok (PDict d))) ->
  well_formed d ins rec c n -> asks d qs ->
  fst (Strict._run py self query context run_manager w)
  = Ok (PStr (strip
          (strict_base py rec c n
             (or_default (lookup (u "implementation_time") ins) (PStr (u "Unknown")))
             (or_default (lookup (u "roi_estimate") ins) (PStr (u "Unknown")))
           ++ strict_questions qs))).
Proof.
  intros Hnet Hwf Hq.
  apply (strict_run_format_ok py self query context run_manager w (PDict d) _ Hnet).
  now apply strict_format_layout.
Qed.

Lemma strict_numbers_the_questions_witness :
  fst (Strict._run demo_builtins demo_strict (u "hello") PNone None
         (replying (PDict (items_asking [u "How?"; u "Why?"; u "When?"]))))
  = Ok (PStr (u "CellRepair.AI Analysis:\n\nUse caching\n\nConfidence: 87.0%\nAgents Consulted: 42\nImplementation Time: Unknown\nROI Estimate: Unknown\n\n\nPredictive Intelligence (3 steps ahead):\n  1. How?\n  2. Why?\n  3. When?"))
  /\ fst (Strict._run demo_builtins demo_strict (u "hello") PNone None
         (replying (PDict (items_asking []))))
  = Ok (PStr (u "CellRepair.AI Analysis:\n\nUse caching\n\nConfidence: 87.0%\nAgents Consulted: 42\nImplementation Time: Unknown\nROI Estimate: Unknown")).
Proof.
  split.
  - rewrite (strict_numbers_the_questions demo_builtins
               (replying (PDict (items_asking [u "How?"; u "Why?"; u "When?"])))
               (u "hello") None demo_strict PNone
               (items_asking [u "How?"; u "Why?"; u "When?"]) demo_insight
               (u "Use caching") 0.87 42 [u "How?"; u "Why?"; u "When?"] eq_refl).
    + vm_compute. reflexivity.
    + repeat split; vm_compute; reflexivity.
    + right. eexists. split; [vm_compute; reflexivity |]. left. reflexivity.
  - rewrite (strict_numbers_the_questions demo_builtins
               (replying (PDict (items_asking []))) (u "hello") None demo_strict PNone
               (items_asking []) demo_insight (u "Use caching") 0.87 42 [] eq_refl).
    + vm_compute. reflexivity.
    + repeat split; vm_compute; reflexivity.
    + right. eexists. split; [vm_compute; reflexivity |]. left. reflexivity.
Defined.

(** ** The constructors and what they hand to [_run] *)

Lemma lenient_init_cases (a : option pystr) (w : world) :
  (exists k, k <> [] /\ Lenient.__init__ a w = (Ok (Lenient.mk_tool k DEFAULT_URL), w))
  \/ Lenient.__init__ a w
     = (Ok (Lenient.mk_tool [] DEFAULT_URL),
        mk_world (environ w) (network w) (sent w) (stdout w ++ ADVISORY)).
Proof.
  replace (stdout w ++ ADVISORY)
    with ((stdout w ++ [nth 0 ADVISORY []]) ++ [nth 1 ADVISORY []])
    by (rewrite <- app_assoc; reflexivity).
  assert (Henv : forall a', a' = None \/ a' = Some [] ->
            (exists k, k <> [] /\
               Lenient.__init__ a' w = (Ok (Lenient.mk_tool k DEFAULT_URL), w))
            \/ Lenient.__init__ a' w
               = (Ok (Lenient.mk_tool [] DEFAULT_URL),
                  mk_world (environ w) (network w) (sent w)
                    ((stdout w ++ [nth 0 ADVISORY []]) ++ [nth 1 ADVISORY []]))).
  { intros a' Ha'.
    destruct (env_lookup ENV_KEY (environ w)) as [[|c e] |] eqn:He.
    - right. unfold Lenient.__init__, bind.
      destruct Ha' as [-> | ->]; cbn [truthy str_eqb negb];
        rewrite (getenv_set w _ He); reflexivity.
    - left. exists (c :: e). split; [discriminate |].
      apply lenient_init_env; [assumption | assumption | discriminate].
    - right. unfold Lenient.__init__, bind.
      destruct Ha' as [-> | ->]; cbn [truthy str_eqb negb];
        rewrite (getenv_unset w He); reflexivity. }
  destruct a as [[|c k] |].
  - apply Henv. now right.
  - left. exists (c :: k). split; [discriminate |].
    apply lenient_init_explicit. discriminate.
  - apply Henv. now left.
Qed.

(** X11: the lenient constructor never fails and never calls the network.
    [get_cellrepair_tool] always returns a tool on the default endpoint; it
    prints its two lines of advice exactly when the credential it resolved
    is empty, and prints nothing otherwise. *)
Theorem lenient_constructor_advises (api_key : option pystr) (w : world) :
  exists self,
    fst (Lenient.get_cellrepair_tool api_key w) = Ok self
    /\ Lenient.api_url self = DEFAULT_URL
    /\ sent (snd (Lenient.get_cellrepair_tool api_key w)) = sent w
    /\ environ (snd (Lenient.get_cellrepair_tool api_key w)) = environ w
    /\ stdout (snd (Lenient.get_cellrepair_tool api_key w))
       = stdout w ++ (if truthy (PStr (Lenient.api_key self)) then [] else ADVISORY).
Proof.
  unfold Lenient.get_cellrepair_tool.
  destruct (lenient_init_cases api_key w) as [[k [Hk ->]] | ->].
  - exists (Lenient.mk_tool k DEFAULT_URL). cbn [fst snd Lenient.api_key Lenient.api_url].
    rewrite (truthy_nonempty k Hk). now rewrite app_nil_r.
  - exists (Lenient.mk_tool [] DEFAULT_URL).
    cbn [fst snd Lenient.api_key Lenient.api_url sent environ stdout].
    repeat split.
Qed.

Lemma strict_init_cases (a : option pystr) (w : world) :
  (exists k, k <> [] /\ Strict.__init__ a w = (Ok (Strict.mk_tool k DEFAULT_URL), w))
  \/ Strict.__init__ a w
     = (Raised (mk_exn ValueError
                  (u "API key required! Get one at: https://cellrepair.ai/api/?utm_source=langchain&utm_medium=integration\nOr set CELLREPAIR_API_KEY environment variable.")),
        w).
Proof.
  destruct a as [[|c k] |].
  - right. reflexivity.
  - left. exists (c :: k). split; [discriminate |].
    apply strict_init_explicit. discriminate.
  - destruct (env_lookup ENV_KEY (environ w)) as [[|c e] |] eqn:He.
    + right. unfold Strict.__init__, bind. rewrite (getenv_set w _ He). reflexivity.
    + left. exists (c :: e). split; [discriminate |].
      apply strict_init_env; [assumption | discriminate].
    + right. unfold Strict.__init__, bind. rewrite (getenv_unset w He). reflexivity.
Qed.

(** X12: the strict constructor keeps the credential non-empty.
    [create_cellrepair_tool] touches nothing in the world -- it prints
    nothing and sends nothing -- and either returns a tool on the default
    endpoint whose credential is not empty, or raises a ValueError whose
    message says where a key is obtained and names the environment
    variable. *)
Theorem strict_constructor_invariant (api_key : option pystr) (w : world) :
  snd (Strict.create_cellrepair_tool api_key w) = w
  /\ match fst (Strict.create_cellrepair_tool api_key w) with
     | Ok self => Strict.api_key self <> [] /\ Strict.api_endpoint self = DEFAULT_URL
     | Raised e =>
       exn_cls e = ValueError
       /\ contains KEY_URL (exn_str e) = true
       /\ contains ENV_KEY (exn_str e) = true
     end.
Proof.
  unfold Strict.create_cellrepair_tool.
  destruct (strict_init_cases api_key w) as [[k [Hk ->]] | ->]; cbn [fst snd].
  - repeat split. exact Hk.
  - repeat split; vm_compute; reflexivity.
Qed.

Lemma lenient_request_authorization self query :
  authorization (lenient_request self query) = Some (u "Bearer " ++ Lenient.api_key self).
Proof. reflexivity. Qed.

Lemma strict_request_authorization self query context :
  authorization (strict_request self query context)
  = Some (u "Bearer " ++ Strict.api_key self).
Proof. reflexivity. Qed.

(** X13: no request leaves without a credential.  Building a tool and
    calling it once sends at most one request, and the request sent carries
    "Bearer <key>" with a key that is not empty.  When no key is found the
    strict path raises ValueError from the constructor, and the lenient path
    prints its advice and returns the missing-key error string; in both
    cases nothing is sent. *)
Theorem no_request_without_credential (py : builtins) (w : world)
    (api_key : option pystr) (query : pystr)
    (run_manager : option CallbackManagerForToolRun) :
  (let call := bind (Lenient.get_cellrepair_tool api_key)
                 (fun tool => Lenient._run py tool query run_manager) in
   (fst (call w)
    = Ok (PStr (u "Error: No API key. Get free key at https://cellrepair.ai/api/ (1000 calls/month free!)"))
    /\ sent (snd (call w)) = sent w
    /\ stdout (snd (call w)) = stdout w ++ ADVISORY)
   \/ (exists key r s,
         key <> []
         /\ fst (call w) = Ok (PStr s)
         /\ sent (snd (call w)) = sent w ++ [r]
         /\ authorization r = Some (u "Bearer " ++ key)
         /\ stdout (snd (call w)) = stdout w))
  /\ (forall context : pyval,
      let call := bind (Strict.create_cellrepair_tool api_key)
                    (fun tool => Strict._run py tool query context run_manager) in
      (exists e, call w = (Raised e, w) /\ exn_cls e = ValueError)
      \/ (exists key r s,
            key <> []
            /\ fst (call w) = Ok (PStr s)
            /\ sent (snd (call w)) = sent w ++ [r]
            /\ authorization r = Some (u "Bearer " ++ key)
            /\ stdout (snd (call w)) = stdout w)).
Proof.
  split.
  - cbv zeta. unfold bind, Lenient.get_cellrepair_tool.
    destruct (lenient_init_cases api_key w) as [[k [Hk ->]] | ->].
    + right.
      destruct (lenient_run_returns_str py (Lenient.mk_tool k DEFAULT_URL) query
                  run_manager w) as [s Hs].
      exists k, (lenient_request (Lenient.mk_tool k DEFAULT_URL) query), s.
      split; [exact Hk |]. split; [exact Hs |].
      rewrite lenient_run_world by exact Hk. repeat split.
    + left. rewrite lenient_run_nokey by reflexivity. repeat split.
  - intros context. cbv zeta. unfold bind, Strict.create_cellrepair_tool.
    destruct (strict_init_cases api_key w) as [[k [Hk ->]] | ->].
    + right.
      destruct (strict_run_returns_str py (Strict.mk_tool k DEFAULT_URL) query context
                  run_manager w) as [s Hs].
      exists k, (strict_request (Strict.mk_tool k DEFAULT_URL) query context), s.
      split; [exact Hk |]. split; [exact Hs |].
      rewrite strict_run_world. repeat split.
    + left. eexists. split; reflexivity.
Qed.

(** ** The demo *)









(** ** The context sent *)

Lemma strict_request_context self query context :
  body_field (u "context") (strict_request self query context)
  = Some (py_or context (PDict [])).
Proof. vm_compute. reflexivity. Qed.

Lemma lenient_request_context self query :
  body_field (u "context") (lenient_request self query) = Some (PDict []).
Proof. vm_compute. reflexivity. Qed.

(** X15: the context on the wire is never null.  The strict tool sends the
    caller's context when it is truthy and the empty object otherwise -- for
    [None], for [{}] and for every other falsy value -- and the lenient tool,
    which takes no context, always sends the empty object. *)
Theorem context_sent_is_never_null (py : builtins) (w : world) (query : pystr)
    (run_manager : option CallbackManagerForToolRun) :
  (forall self : Lenient.CellRepairAITool,
     Lenient.api_key self <> [] ->
     exists r, sent (snd (Lenient._run py self query run_manager w)) = sent w ++ [r]
       /\ body_field (u "context") r = Some (PDict []))
  /\ (forall (self : Strict.CellRepairTool) (context : pyval),
     exists r, sent (snd (Strict._run py self query context run_manager w)) = sent w ++ [r]
       /\ body_field (u "context") r
          = Some (if truthy context then context else PDict [])
       /\ body_field (u "context") r <> Some PNone).
Proof.
  split.
  - intros self Hk. exists (lenient_request self query).
    rewrite lenient_run_world by assumption. split; [reflexivity |].
    apply lenient_request_context.
  - intros self context. exists (strict_request self query context).
    rewrite strict_run_world. split; [reflexivity |].
    rewrite strict_request_context. unfold py_or. split; [reflexivity |].
    destruct context; cbn [truthy]; try discriminate.
    + destruct b; discriminate.
    + destruct (negb (n =? 0)%Z); discriminate.
    + destruct (negb (PrimFloat.eqb f 0)); discriminate.
    + destruct (negb (str_eqb s [])); discriminate.
    + destruct l; discriminate.
    + destruct d; discriminate.
Qed.

Lemma context_sent_is_never_null_witness :
  exists r, sent (snd (Lenient._run demo_builtins demo_lenient (u "hello") None
                         (answering 200)))
            = sent (answering 200) ++ [r]
    /\ body_field (u "context") r = Some (PDict []).
Proof.
  apply (proj1 (context_sent_is_never_null demo_builtins (answering 200) (u "hello") None)
           demo_lenient).
  discriminate.
Defined.

(** ** Questions that are not a list *)

Lemma lenient_format_questions_value (py : builtins) (d ins pi : list (pystr * pyval))
    (rec : pystr) (c : float) (n : Z) (v : pyval) :
  well_formed d ins rec c n ->
  lookup (u "predictive_intelligence") d = Some (PDict pi) ->
  lookup (u "you_will_probably_ask_next") pi = Some v ->
  lookup (u "learning_exchange") d = None ->
  lenient_format py (PDict d)
  = if truthy v then
      obind (py_iter v)
        (fun items =>
           Ok (PStr (fold_left
                       (fun result iq =>
                          result ++ u "  " ++ str_of_int (fst iq) ++ u ". "
                          ++ py_str py (snd iq) ++ u "\n")
                       (enumerate items 1)
                       (lenient_base rec c n ++ u "\nYou'll probably ask next:\n"))))
    else Ok (PStr (lenient_base rec c n)).
Proof.
  intros [Hi [Hr [Hc Ha]]] Hp Hq Hl. unfold lenient_format. cbv zeta.
  unfold getitem at 1 2 3 4 5. rewrite Hi. cbn [obind]. rewrite Hr, Hc, Ha. cbn [obind].
  change (py_mul (PFloat c) 100) with (Ok (PFloat (c * 100)%float)).
  cbn [obind py_format_f py_str py_repr]. unfold py_in, getitem.
  rewrite Hp, Hl. cbn [obind]. rewrite py_get_dict, Hq. cbn [or_default obind].
  unfold lenient_base. rewrite <- !app_assoc.
  destruct (truthy v); [| reflexivity].
  destruct (py_iter v); reflexivity.
Qed.

Lemma characters_as_questions (s : pystr) :
  map (fun c => PStr [c]) s = map PStr (map (fun c => [c]) s).
Proof. now rewrite map_map. Qed.

(** X16: predicted questions that are not a list, in the lenient tool.  For
    a well-formed 200 body whose [you_will_probably_ask_next] holds a falsy
    value (null, false, 0, "", an empty list or object) the section is left
    out; a non-empty string is walked character by character, each
    character numbered as a question; a non-zero integer cannot be walked
    and the call returns "Error: 'int' object is not iterable". *)
Theorem lenient_questions_of_another_type (py : builtins) (w : world) (query : pystr)
    (run_manager : option CallbackManagerForToolRun)
    (self : Lenient.CellRepairAITool) (d ins pi : list (pystr * pyval))
    (rec : pystr) (c : float) (n : Z) (v : pyval) :
  Lenient.api_key self <> [] ->
  network w (lenient_request self query) = Ok (mk_response 200 (Ok (PDict d))) ->
  well_formed d ins rec c n ->
  lookup (u "predictive_intelligence") d = Some (PDict pi) ->
  lookup (u "you_will_probably_ask_next") pi = Some v ->
  lookup (u "learning_exchange") d = None ->
  (truthy v = false ->
   fst (Lenient._run py self query run_manager w) = Ok (PStr (lenient_base rec c n)))
  /\ (forall s, v = PStr s -> s <> [] ->
      fst (Lenient._run py self query run_manager w)
      = Ok (PStr (lenient_base rec c n ++ u "\nYou'll probably ask next:\n"
                  ++ numbered_from 1 (map (fun ch => [ch]) s))))
  /\ (forall k, v = PInt k -> k <> 0%Z ->
      fst (Lenient._run py self query run_manager w)
      = Ok (PStr (u "Error: 'int' object is not iterable"))).
Proof.
  intros Hk Hnet Hwf Hp Hq Hl.
  pose proof (lenient_format_questions_value py d ins pi rec c n v Hwf Hp Hq Hl) as Hf.
  repeat split.
  - intros Hv. rewrite Hv in Hf.
    exact (lenient_run_format_ok py self query run_manager w (PDict d) _ Hk Hnet Hf).
  - intros s -> Hs. rewrite (truthy_nonempty s Hs) in Hf.
    cbn [py_iter obind] in Hf. rewrite characters_as_questions, numbering_loop in Hf.
    rewrite <- app_assoc in Hf.
    exact (lenient_run_format_ok py self query run_manager w (PDict d) _ Hk Hnet Hf).
  - intros k -> Hk0. cbn [truthy] in Hf. apply Z.eqb_neq in Hk0. rewrite Hk0 in Hf.
    cbn [negb py_iter obind] in Hf.
    assert (Hm : u "Error: " ++ (u "'" ++ type_name (PInt k) ++ u "' object is not iterable")
                 = u "Error: 'int' object is not iterable")
      by (vm_compute; reflexivity).
    rewrite <- Hm.
    exact (lenient_run_format_error py self query run_manager w (PDict d) _ Hk Hnet Hf
             eq_refl).
Qed.

Lemma lenient_questions_of_another_type_witness :
  fst (Lenient._run demo_builtins demo_lenient (u "hello") None
         (replying (PDict (insight_items
            ++ [(u "predictive_intelligence",
                 PDict [(u "you_will_probably_ask_next", PStr (u "Why"))])]))))
  = Ok (PStr (u "CellRepair.AI Network Response:\n\nUse caching\n\nConfidence: 87%\nAgents consulted: 42\n\nYou'll probably ask next:\n  1. W\n  2. h\n  3. y\n"))
  /\ fst (Lenient._run demo_builtins demo_lenient (u "hello") None
         (replying (PDict (insight_items
            ++ [(u "predictive_intelligence",
                 PDict [(u "you_will_probably_ask_next", PInt 3)])]))))
  = Ok (PStr (u "Error: 'int' object is not iterable")).
Proof.
  split.
  - rewrite (proj1 (proj2
      (lenient_questions_of_another_type demo_builtins
         (replying (PDict (insight_items
            ++ [(u "predictive_intelligence",
                 PDict [(u "you_will_probably_ask_next", PStr (u "Why"))])])))
         (u "hello") None demo_lenient
         (insight_items
            ++ [(u "predictive_intelligence",
                 PDict [(u "you_will_probably_ask_next", PStr (u "Why"))])])
         demo_insight [(u "you_will_probably_ask_next", PStr (u "Why"))]
         (u "Use caching") 0.87 42 (PStr (u "Why"))
         ltac:(discriminate) eq_refl
         ltac:(repeat split; vm_compute; reflexivity)
         ltac:(vm_compute; reflexivity) ltac:(vm_compute; reflexivity)
         ltac:(vm_compute; reflexivity)))
      (u "Why") eq_refl ltac:(discriminate)).
    vm_compute. reflexivity.
  - apply (proj2 (proj2
      (lenient_questions_of_another_type demo_builtins
         (replying (PDict (insight_items
            ++ [(u "predictive_intelligence",
                 PDict [(u "you_will_probably_ask_next", PInt 3)])])))
         (u "hello") None demo_lenient
         (insight_items
            ++ [(u "predictive_intelligence",
                 PDict [(u "you_will_probably_ask_next", PInt 3)])])
         demo_insight [(u "you_will_probably_ask_next", PInt 3)]
         (u "Use caching") 0.87 42 (PInt 3)
         ltac:(discriminate) eq_refl
         ltac:(repeat split; vm_compute; reflexivity)
         ltac:(vm_compute; reflexivity) ltac:(vm_compute; reflexivity)
         ltac:(vm_compute; reflexivity)))
      3%Z eq_refl ltac:(discriminate)).
Defined.

(** ** A body that is no object *)

Lemma no_get_message (t : pystr) :
  u "Error: " ++ (u "'" ++ t ++ u "' object has no attribute 'get'")
  = u "Error: '" ++ t ++ u "' object has no attribute 'get'".
Proof. vm_compute. reflexivity. Qed.

(** X17: a 200 body that is valid JSON but not an object -- null, a
    boolean, a number, a string or a list -- is not formatted by the strict
    tool: its first [.get] fails, and the call returns
    "Error: '<type>' object has no attribute 'get'" with the Python name of
    the type of the body. *)
Theorem strict_body_must_be_an_object (py : builtins) (w : world) (query : pystr)
    (run_manager : option CallbackManagerForToolRun)
    (self : Strict.CellRepairTool) (context data : pyval) :
  network w (strict_request self query context) = Ok (mk_response 200 (Ok data)) ->
  (forall d, data <> PDict d) ->
  fst (Strict._run py self query context run_manager w)
  = Ok (PStr (u "Error: '" ++ type_name data ++ u "' object has no attribute 'get'")).
Proof.
  intros Hnet Hd. rewrite <- no_get_message.
  apply (strict_run_format_error py self query context run_manager w data
           (mk_exn AttributeError
              (u "'" ++ type_name data ++ u "' object has no attribute 'get'")) Hnet);
    [| reflexivity].
  unfold strict_format. destruct data; try reflexivity. now elim (Hd d).
Qed.

Lemma strict_body_must_be_an_object_witness :
  fst (Strict._run demo_builtins demo_strict (u "hello") PNone None
         (replying (PList [PStr (u "Use caching")])))
  = Ok (PStr (u "Error: 'list' object has no attribute 'get'")).
Proof.
  rewrite (strict_body_must_be_an_object demo_builtins
             (replying (PList [PStr (u "Use caching")])) (u "hello") None demo_strict
             PNone (PList [PStr (u "Use caching")]) eq_refl ltac:(discriminate)).
  vm_compute. reflexivity.
Defined.
